(** * Prompt normalisation of the inference server: [aphrodite/inputs/preprocess.py]

    A shallow embedding of the class [InputPreprocessor] and of the
    collaborators it talks to, followed by the properties of the
    normalisation pipeline.

    Python values are embedded as follows.
    - [int] is [Z]; [List[int]] is [list Z]; [str] is [string].
    - [Optional[T]] is [option T], with [None] for Python's [None].
    - [Dict[str, Any]] and the multi-modal payload are association lists.
    - A method that may raise, log or call the tokenizer is a computation
      in the monad [Run]: it yields the ordered list of the calls it made
      to its collaborators together with either a value or the exception
      that was raised. *)

From Stdlib Require Import List ZArith String Bool Lia.
Import ListNotations.

Local Open Scope string_scope.
Local Open Scope list_scope.
Local Open Scope Z_scope.

(** ** Data model *)

(** The values of a [Dict[str, Any]]: they are only ever carried through. *)
Inductive Any : Type :=
| AnyInt (n : Z)
| AnyStr (s : string).

Definition Dict : Type := list (string * Any).
Definition MultiModalDataDict : Type := list (string * Any).

(** [aphrodite.lora.request.LoRARequest]: an identity handed to the
    tokenizer lookup. *)
Record LoRARequest : Type := {
  lora_name : string;
  lora_int_id : Z
}.

(** [aphrodite.prompt_adapter.request.PromptAdapterRequest]. *)
Record PromptAdapterRequest : Type := {
  prompt_adapter_name : string;
  prompt_adapter_id : Z;
  prompt_adapter_num_virtual_tokens : Z
}.

(** [TokensPrompt] of [inputs/data.py]: the two optional keys are read with
    [.get], so a missing key and a [None] value are the same [None]. *)
Module TokensPrompt.
Record t : Type := {
  prompt_token_ids : list Z;
  multi_modal_data : option MultiModalDataDict;
  mm_processor_kwargs : option Dict
}.
End TokensPrompt.

(** [TextPrompt] of [inputs/data.py]. *)
Module TextPrompt.
Record t : Type := {
  prompt : string;
  multi_modal_data : option MultiModalDataDict;
  mm_processor_kwargs : option Dict
}.
End TextPrompt.

(** [SingletonPrompt = Union[str, TextPrompt, TokensPrompt]]. *)
Inductive SingletonPrompt : Type :=
| PromptStr (s : string)
| PromptText (p : TextPrompt.t)
| PromptTokens (p : TokensPrompt.t).

(** [ExplicitEncoderDecoderPrompt]: [decoder_prompt] is a required key whose
    value may be [None]; [mm_processor_kwargs] is a key that may be missing
    from the mapping, which is [None] here. *)
Module ExplicitEncoderDecoderPrompt.
Record t : Type := {
  encoder_prompt : SingletonPrompt;
  decoder_prompt : option SingletonPrompt;
  mm_processor_kwargs : option Dict
}.
End ExplicitEncoderDecoderPrompt.

(** [PromptType = Union[SingletonPrompt, ExplicitEncoderDecoderPrompt]]. *)
Inductive PromptType : Type :=
| Singleton (p : SingletonPrompt)
| Explicit (p : ExplicitEncoderDecoderPrompt.t).

(** The result of [parse_singleton_prompt]: the tag [type] and the
    [content] it comes with. *)
Inductive ParsedSingletonPrompt : Type :=
| ParsedStrPrompt (content : string)
| ParsedTokensPrompt (content : TokensPrompt.t)
| ParsedTextPrompt (content : TextPrompt.t).

(** Modelled from the spec: [parse_singleton_prompt] of [inputs/parse.py],
    the classifier of a single-sided prompt: a raw string is plain text, a
    mapping with the key [prompt_token_ids] is pre-tokenized, a mapping with
    the key [prompt] is text with metadata.  The inputs are typed here, so the
    failure on an unknown shape has no input to occur on. *)
Definition parse_singleton_prompt (prompt : SingletonPrompt)
  : ParsedSingletonPrompt :=
  match prompt with
  | PromptStr s => ParsedStrPrompt s
  | PromptTokens p => ParsedTokensPrompt p
  | PromptText p => ParsedTextPrompt p
  end.

(** Modelled from the spec: [is_explicit_encoder_decoder_prompt] of
    [inputs/parse.py]: the explicit pair form is recognised by its top-level
    keys, whatever the nested values look like. *)
Definition is_explicit_encoder_decoder_prompt (prompt : PromptType) : bool :=
  match prompt with
  | Explicit _ => true
  | Singleton _ => false
  end.

(** [PromptComponents] and [DecoderPromptComponents]: the four-tuples
    (prompt, prompt_token_ids, multi_modal_data, mm_processor_kwargs). *)
Definition PromptComponents : Type :=
  option string * list Z * option MultiModalDataDict * option Dict.
Definition DecoderPromptComponents : Type :=
  option string * option (list Z) * option MultiModalDataDict * option Dict.

(** A [PromptComponents] value used where the annotation is
    [DecoderPromptComponents]. *)
Definition as_decoder_comps (c : PromptComponents) : DecoderPromptComponents :=
  let '(prompt, prompt_token_ids, multi_modal_data, mm_processor_kwargs) := c in
  (prompt, Some prompt_token_ids, multi_modal_data, mm_processor_kwargs).

Module DecoderOnlyInputs.
Record t : Type := {
  prompt_token_ids : list Z;
  prompt : option string;
  multi_modal_data : option MultiModalDataDict;
  mm_processor_kwargs : option Dict
}.
End DecoderOnlyInputs.

Module EncoderDecoderInputs.
Record t : Type := {
  prompt_token_ids : list Z;
  prompt : option string;
  multi_modal_data : option MultiModalDataDict;
  mm_processor_kwargs : Dict;
  encoder_prompt_token_ids : list Z;
  encoder_prompt : option string;
  encoder_multi_modal_data : option MultiModalDataDict
}.
End EncoderDecoderInputs.

(** [Union[DecoderOnlyInputs, EncoderDecoderInputs]], what [preprocess]
    returns. *)
Inductive ProcessorInputs : Type :=
| DecoderOnly (inputs : DecoderOnlyInputs.t)
| EncoderDecoder (inputs : EncoderDecoderInputs.t).

(** ** Collaborators *)

(** The tokenizer object of one adapter: its special tokens. *)
Record AnyTokenizer : Type := {
  bos_token_id : option Z;
  eos_token_id : option Z
}.

(** [BaseTokenizerGroup]: [encode] and [encode_async] take
    [request_id], [prompt] and [lora_request]; [encode_async] stands for the
    value its awaiting yields. *)
Record BaseTokenizerGroup : Type := {
  get_lora_tokenizer : option LoRARequest -> AnyTokenizer;
  encode : string -> string -> option LoRARequest -> list Z;
  encode_async : string -> string -> option LoRARequest -> list Z
}.

(** The part of the model configuration read through
    [getattr(hf_config, 'decoder_start_token_id', None)]. *)
Record HfConfig : Type := {
  decoder_start_token_id : option Z
}.

Module ModelConfig.
Record t : Type := {
  is_encoder_decoder_model : bool;
  hf_config : option HfConfig
}.
End ModelConfig.

(** ** Exceptions, collaborator calls and the monad of the methods *)

Inductive Exn : Type :=
| TokenizerUnavailable
    (* ValueError: You cannot pass text prompts when `skip_tokenizer_init` is True *)
| IncompatiblePromptShape
    (* ValueError: Cannot pass encoder-decoder prompt to decoder-only models *)
| UnsupportedMultiModalDecoderInput
    (* ValueError: Multi-modality decoder inputs of encoder-decoder models
       are not supported yet *)
| MissingBosToken
    (* AssertionError of `assert bos_token_id is not None` *)
| MissingDecoderStartToken
    (* AssertionError of `assert decoder_start_token_id is not None` *)
| KeyError (key : string)
| UnboundLocalError (name : string).

Inductive WarningMessage : Type :=
| BosNoneTokenizerNotInitialized
| EosNoneTokenizerNotInitialized
| DecoderStartNoneNotEncoderDecoder
| DecoderStartNoneNoModelConfig
| DecoderStartFallsBackOnBos.

(** What a method does to its surroundings, in the order it does it. *)
Inductive Event : Type :=
| Encode (request_id prompt : string) (lora_request : option LoRARequest)
| EncodeAsync (request_id prompt : string) (lora_request : option LoRARequest)
| GetLoraTokenizer (lora_request : option LoRARequest)
| Warn (message : WarningMessage).

Inductive Result (A : Type) : Type :=
| Ok (value : A)
| Raise (e : Exn).
Arguments Ok {A} value.
Arguments Raise {A} e.

Definition Run (A : Type) : Type := list Event * Result A.

Definition trace {A : Type} (m : Run A) : list Event := fst m.
Definition outcome {A : Type} (m : Run A) : Result A := snd m.

Definition ret {A : Type} (a : A) : Run A := ([], Ok a).
Definition raise {A : Type} (e : Exn) : Run A := ([], Raise e).
Definition emit (ev : Event) : Run unit := ([ev], Ok tt).

Definition bind {A B : Type} (m : Run A) (k : A -> Run B) : Run B :=
  match m with
  | (tr, Ok a) => let (tr', r) := k a in (tr ++ tr', r)
  | (tr, Raise e) => (tr, Raise e)
  end.

Declare Scope run_scope.
Delimit Scope run_scope with run.
Notation "x <- m ;; k" := (bind m (fun x => k))
  (at level 61, m at next level, right associativity) : run_scope.
Notation "m ;;; k" := (bind m (fun _ => k))
  (at level 61, right associativity) : run_scope.
Local Open Scope run_scope.

(** [asyncio.gather(t1, t2)]: both tasks are started, in this order, and run
    whatever becomes of the other; the pair of their values is returned, or
    the first exception is raised. *)
Definition gather {A B : Type} (t1 : Run A) (t2 : Run B) : Run (A * B) :=
  let (tr1, r1) := t1 in
  let (tr2, r2) := t2 in
  (tr1 ++ tr2,
   match r1, r2 with
   | Ok a, Ok b => Ok (a, b)
   | Raise e, _ => Raise e
   | Ok _, Raise e => Raise e
   end).

(** ** The class [InputPreprocessor] *)

Module InputPreprocessor.

(** The two attributes set by [__init__].  [model_config] is never [None]:
    every entry point reads [self.model_config.is_encoder_decoder_model]
    first. *)
Record t : Type := {
  model_config : ModelConfig.t;
  tokenizer : option BaseTokenizerGroup
}.

Definition is_encoder_decoder_model (self : t) : bool :=
  ModelConfig.is_encoder_decoder_model (model_config self).

Definition get_tokenizer_group (self : t) : Run BaseTokenizerGroup :=
  match tokenizer self with
  | None => raise TokenizerUnavailable
  | Some tokenizer => ret tokenizer
  end.

Definition get_bos_token_id (self : t) (lora_request : option LoRARequest)
  : Run (option Z) :=
  match tokenizer self with
  | None =>
      emit (Warn BosNoneTokenizerNotInitialized) ;;;
      ret None
  | Some tokenizer =>
      emit (GetLoraTokenizer lora_request) ;;;
      ret (bos_token_id (get_lora_tokenizer tokenizer lora_request))
  end.

Definition get_eos_token_id (self : t) (lora_request : option LoRARequest)
  : Run (option Z) :=
  match tokenizer self with
  | None =>
      emit (Warn EosNoneTokenizerNotInitialized) ;;;
      ret None
  | Some tokenizer =>
      emit (GetLoraTokenizer lora_request) ;;;
      ret (eos_token_id (get_lora_tokenizer tokenizer lora_request))
  end.

(** The test [self.model_config is None] comes after
    [self.is_encoder_decoder_model()] has read [self.model_config]; only
    [hf_config is None] is left of it. *)
Definition get_decoder_start_token_id (self : t) : Run (option Z) :=
  if negb (is_encoder_decoder_model self) then
    emit (Warn DecoderStartNoneNotEncoderDecoder) ;;;
    ret None
  else
    match ModelConfig.hf_config (model_config self) with
    | None =>
        emit (Warn DecoderStartNoneNoModelConfig) ;;;
        ret None
    | Some hf_config =>
        match decoder_start_token_id hf_config with
        | None =>
            emit (Warn DecoderStartFallsBackOnBos) ;;;
            get_bos_token_id self None
        | Some dec_start_token_id => ret (Some dec_start_token_id)
        end
    end.

Definition _get_default_enc_dec_decoder_prompt (self : t) : Run (list Z) :=
  bos_token_id <- get_bos_token_id self None ;;
  match bos_token_id with
  | None => raise MissingBosToken
  | Some bos_token_id => ret [bos_token_id]
  end.

Definition _prepare_decoder_input_ids_for_generation
    (self : t) (decoder_input_ids : option (list Z)) (force_bos : bool)
  : Run (list Z) :=
  decoder_start_token_id <- get_decoder_start_token_id self ;;
  match decoder_start_token_id with
  | None => raise MissingDecoderStartToken
  | Some decoder_start_token_id =>
      decoder_input_ids <-
        match decoder_input_ids with
        | None => _get_default_enc_dec_decoder_prompt self
        | Some decoder_input_ids => ret decoder_input_ids
        end ;;
      if force_bos
         && ((List.length decoder_input_ids =? 0)%nat
             || negb (nth 0 decoder_input_ids 0 =? decoder_start_token_id))
      then ret (decoder_start_token_id :: decoder_input_ids)
      else ret decoder_input_ids
  end.

(** An attached request is an object without [__bool__] or [__len__], so
    [if prompt_adapter_request:] holds exactly when it is not [None].
    [[0] * n] is the empty list when [n] is negative, as [Z.to_nat] has
    it. *)
Definition _apply_prompt_adapter
    (prompt_token_ids : list Z)
    (prompt_adapter_request : option PromptAdapterRequest) : list Z :=
  match prompt_adapter_request with
  | Some prompt_adapter_request =>
      repeat 0
        (Z.to_nat (prompt_adapter_num_virtual_tokens prompt_adapter_request))
      ++ prompt_token_ids
  | None => prompt_token_ids
  end.

Definition _tokenize_prompt
    (self : t) (prompt request_id : string)
    (lora_request : option LoRARequest) : Run (list Z) :=
  tokenizer <- get_tokenizer_group self ;;
  emit (Encode request_id prompt lora_request) ;;;
  ret (encode tokenizer request_id prompt lora_request).

Definition _tokenize_prompt_async
    (self : t) (prompt request_id : string)
    (lora_request : option LoRARequest) : Run (list Z) :=
  tokenizer <- get_tokenizer_group self ;;
  emit (EncodeAsync request_id prompt lora_request) ;;;
  ret (encode_async tokenizer request_id prompt lora_request).

Definition _extract_prompt_components
    (self : t) (prompt : SingletonPrompt) (request_id : string)
    (lora_request : option LoRARequest) : Run PromptComponents :=
  match parse_singleton_prompt prompt with
  | ParsedStrPrompt content =>
      let prompt_text := content in
      prompt_token_ids <-
        _tokenize_prompt self prompt_text request_id lora_request ;;
      ret (Some prompt_text, prompt_token_ids, None, None)
  | ParsedTokensPrompt content =>
      ret (None,
           TokensPrompt.prompt_token_ids content,
           TokensPrompt.multi_modal_data content,
           TokensPrompt.mm_processor_kwargs content)
  | ParsedTextPrompt content =>
      let prompt_text := TextPrompt.prompt content in
      prompt_token_ids <-
        _tokenize_prompt self prompt_text request_id lora_request ;;
      ret (Some prompt_text,
           prompt_token_ids,
           TextPrompt.multi_modal_data content,
           TextPrompt.mm_processor_kwargs content)
  end.

Definition _extract_prompt_components_async
    (self : t) (prompt : SingletonPrompt) (request_id : string)
    (lora_request : option LoRARequest) : Run PromptComponents :=
  match parse_singleton_prompt prompt with
  | ParsedStrPrompt content =>
      let prompt_text := content in
      prompt_token_ids <-
        _tokenize_prompt_async self prompt_text request_id lora_request ;;
      ret (Some prompt_text, prompt_token_ids, None, None)
  | ParsedTokensPrompt content =>
      ret (None,
           TokensPrompt.prompt_token_ids content,
           TokensPrompt.multi_modal_data content,
           TokensPrompt.mm_processor_kwargs content)
  | ParsedTextPrompt content =>
      let prompt_text := TextPrompt.prompt content in
      prompt_token_ids <-
        _tokenize_prompt_async self prompt_text request_id lora_request ;;
      ret (Some prompt_text,
           prompt_token_ids,
           TextPrompt.multi_modal_data content,
           TextPrompt.mm_processor_kwargs content)
  end.

Definition is_None {A : Type} (x : option A) : bool :=
  match x with
  | None => true
  | Some _ => false
  end.

Definition _build_enc_dec_llm_inputs
    (self : t) (encoder_comps : PromptComponents)
    (decoder_comps : DecoderPromptComponents) (mm_processor_kwargs : Dict)
  : Run EncoderDecoderInputs.t :=
  let '(encoder_prompt, encoder_prompt_ids, encoder_mm_data, _) :=
    encoder_comps in
  let '(decoder_prompt, decoder_prompt_ids, decoder_mm_data, _) :=
    decoder_comps in
  if negb (is_None decoder_mm_data) then
    raise UnsupportedMultiModalDecoderInput
  else
    decoder_prompt_ids <-
      _prepare_decoder_input_ids_for_generation self decoder_prompt_ids
        (is_None encoder_mm_data && is_None decoder_mm_data) ;;
    ret {| EncoderDecoderInputs.prompt_token_ids := decoder_prompt_ids;
           EncoderDecoderInputs.prompt := decoder_prompt;
           EncoderDecoderInputs.multi_modal_data := decoder_mm_data;
           EncoderDecoderInputs.mm_processor_kwargs := mm_processor_kwargs;
           EncoderDecoderInputs.encoder_prompt_token_ids := encoder_prompt_ids;
           EncoderDecoderInputs.encoder_prompt := encoder_prompt;
           EncoderDecoderInputs.encoder_multi_modal_data := encoder_mm_data |}.

(** [encoder_comps[-1] if encoder_comps[-1] is not None else {}]. *)
Definition last_or_empty (encoder_comps : PromptComponents) : Dict :=
  match snd encoder_comps with
  | Some mm_processor_kwargs => mm_processor_kwargs
  | None => []
  end.

Definition _process_encoder_decoder_prompt
    (self : t) (prompt : PromptType) (request_id : string)
  : Run EncoderDecoderInputs.t :=
  match prompt with
  | Explicit prompt =>
      encoder_comps <-
        _extract_prompt_components self
          (ExplicitEncoderDecoderPrompt.encoder_prompt prompt)
          request_id None ;;
      decoder_comps <-
        match ExplicitEncoderDecoderPrompt.decoder_prompt prompt with
        | None => ret (None, None, None, None)
        | Some decoder_input =>
            comps <-
              _extract_prompt_components self decoder_input request_id None ;;
            ret (as_decoder_comps comps)
        end ;;
      (* prompt.get("mm_processor_kwargs", {}) *)
      let mm_processor_kwargs :=
        match ExplicitEncoderDecoderPrompt.mm_processor_kwargs prompt with
        | Some kwargs => kwargs
        | None => []
        end in
      _build_enc_dec_llm_inputs self encoder_comps decoder_comps
        mm_processor_kwargs
  | Singleton prompt =>
      encoder_comps <-
        _extract_prompt_components self prompt request_id None ;;
      let mm_processor_kwargs := last_or_empty encoder_comps in
      let decoder_comps := (None, None, None, None) in
      _build_enc_dec_llm_inputs self encoder_comps decoder_comps
        mm_processor_kwargs
  end.

(** Reading a local variable that a branch may have left unassigned. *)
Definition load_local {A : Type} (name : string) (value : option A) : Run A :=
  match value with
  | Some a => ret a
  | None => raise (UnboundLocalError name)
  end.

(** [mapping[key]] on a key that may be missing. *)
Definition getitem {A : Type} (key : string) (value : option A) : Run A :=
  match value with
  | Some a => ret a
  | None => raise (KeyError key)
  end.

(** The two branches of the method assign the locals; its last statement
    reads them.  The third component is [None] when the branch taken has
    not assigned [mm_processor_kwargs]. *)
Definition _process_encoder_decoder_prompt_async
    (self : t) (prompt : PromptType) (request_id : string)
  : Run EncoderDecoderInputs.t :=
  locals <-
    match prompt with
    | Explicit prompt =>
        let encoder_task :=
          _extract_prompt_components_async self
            (ExplicitEncoderDecoderPrompt.encoder_prompt prompt)
            request_id None in
        match ExplicitEncoderDecoderPrompt.decoder_prompt prompt with
        | None =>
            encoder_comps <- encoder_task ;;
            let decoder_comps : DecoderPromptComponents :=
              (None, None, None, None) in
            ret (encoder_comps, decoder_comps, @None Dict)
        | Some decoder_input =>
            let decoder_task :=
              _extract_prompt_components_async self decoder_input
                request_id None in
            comps <- gather encoder_task decoder_task ;;
            (* prompt["mm_processor_kwargs"] *)
            mm_processor_kwargs <-
              getitem "mm_processor_kwargs"
                (ExplicitEncoderDecoderPrompt.mm_processor_kwargs prompt) ;;
            ret (fst comps, as_decoder_comps (snd comps),
                 Some mm_processor_kwargs)
        end
    | Singleton prompt =>
        encoder_comps <-
          _extract_prompt_components_async self prompt request_id None ;;
        let mm_processor_kwargs := last_or_empty encoder_comps in
        let decoder_comps : DecoderPromptComponents :=
          (None, None, None, None) in
        ret (encoder_comps, decoder_comps, Some mm_processor_kwargs)
    end ;;
  let '(encoder_comps, decoder_comps, mm_processor_kwargs) := locals in
  mm_processor_kwargs <- load_local "mm_processor_kwargs" mm_processor_kwargs ;;
  _build_enc_dec_llm_inputs self encoder_comps decoder_comps
    mm_processor_kwargs.

Definition _build_decoder_only_llm_inputs
    (prompt_comps : PromptComponents)
    (prompt_adapter_request : option PromptAdapterRequest)
  : DecoderOnlyInputs.t :=
  let '(prompt, prompt_token_ids, multi_modal_data, mm_processor_kwargs) :=
    prompt_comps in
  let prompt_token_ids :=
    _apply_prompt_adapter prompt_token_ids prompt_adapter_request in
  {| DecoderOnlyInputs.prompt_token_ids := prompt_token_ids;
     DecoderOnlyInputs.prompt := prompt;
     DecoderOnlyInputs.multi_modal_data := multi_modal_data;
     DecoderOnlyInputs.mm_processor_kwargs := mm_processor_kwargs |}.

Definition _process_decoder_only_prompt
    (self : t) (prompt : SingletonPrompt) (request_id : string)
    (lora_request : option LoRARequest)
    (prompt_adapter_request : option PromptAdapterRequest)
  : Run DecoderOnlyInputs.t :=
  prompt_comps <-
    _extract_prompt_components self prompt request_id lora_request ;;
  ret (_build_decoder_only_llm_inputs prompt_comps prompt_adapter_request).

Definition _process_decoder_only_prompt_async
    (self : t) (prompt : SingletonPrompt) (request_id : string)
    (lora_request : option LoRARequest)
    (prompt_adapter_request : option PromptAdapterRequest)
  : Run DecoderOnlyInputs.t :=
  prompt_comps <-
    _extract_prompt_components_async self prompt request_id lora_request ;;
  ret (_build_decoder_only_llm_inputs prompt_comps prompt_adapter_request).

(** [prompt] is typed, so the test [is_explicit_encoder_decoder_prompt] of
    the two entry points and of the encoder/decoder methods is the [match]
    on its constructor. *)
Definition preprocess
    (self : t) (prompt : PromptType) (request_id : string)
    (lora_request : option LoRARequest)
    (prompt_adapter_request : option PromptAdapterRequest)
  : Run ProcessorInputs :=
  if is_encoder_decoder_model self then
    inputs <- _process_encoder_decoder_prompt self prompt request_id ;;
    ret (EncoderDecoder inputs)
  else
    match prompt with
    | Explicit _ => raise IncompatiblePromptShape
    | Singleton prompt =>
        inputs <-
          _process_decoder_only_prompt self prompt request_id lora_request
            prompt_adapter_request ;;
        ret (DecoderOnly inputs)
    end.

Definition preprocess_async
    (self : t) (prompt : PromptType) (request_id : string)
    (lora_request : option LoRARequest)
    (prompt_adapter_request : option PromptAdapterRequest)
  : Run ProcessorInputs :=
  if is_encoder_decoder_model self then
    inputs <- _process_encoder_decoder_prompt_async self prompt request_id ;;
    ret (EncoderDecoder inputs)
  else
    match prompt with
    | Explicit _ => raise IncompatiblePromptShape
    | Singleton prompt =>
        inputs <-
          _process_decoder_only_prompt_async self prompt request_id
            lora_request prompt_adapter_request ;;
        ret (DecoderOnly inputs)
    end.

End InputPreprocessor.

Import InputPreprocessor.

(** ** Views of prompts and results used by the statements *)

(** The prompts whose parsed [type] is ["str"] or ["text"]: the ones that
    are sent to the tokenizer. *)
Definition is_text_prompt (prompt : SingletonPrompt) : bool :=
  match parse_singleton_prompt prompt with
  | ParsedStrPrompt _ => true
  | ParsedTextPrompt _ => true
  | ParsedTokensPrompt _ => false
  end.

(** The multi-modal payload a singleton prompt carries, if any. *)
Definition singleton_multi_modal_data (prompt : SingletonPrompt)
  : option MultiModalDataDict :=
  match parse_singleton_prompt prompt with
  | ParsedStrPrompt _ => None
  | ParsedTokensPrompt content => TokensPrompt.multi_modal_data content
  | ParsedTextPrompt content => TextPrompt.multi_modal_data content
  end.

(** The prompt of the encoder side and, when there is one, of the decoder
    side of an input handed to an encoder/decoder model. *)
Definition encoder_side (prompt : PromptType) : SingletonPrompt :=
  match prompt with
  | Singleton p => p
  | Explicit p => ExplicitEncoderDecoderPrompt.encoder_prompt p
  end.

Definition decoder_side (prompt : PromptType) : option SingletonPrompt :=
  match prompt with
  | Singleton _ => None
  | Explicit p => ExplicitEncoderDecoderPrompt.decoder_prompt p
  end.

(** The LoRA selector a collaborator call was made with. *)
Definition event_lora_request (ev : Event) : option LoRARequest :=
  match ev with
  | Encode _ _ lora_request => lora_request
  | EncodeAsync _ _ lora_request => lora_request
  | GetLoraTokenizer lora_request => lora_request
  | Warn _ => None
  end.

Definition without_lora (ev : Event) : Prop := event_lora_request ev = None.

(** An explicit pair that has both a decoder prompt and the key
    [mm_processor_kwargs]; a singleton prompt has nothing to miss. *)
Definition pair_is_complete (prompt : PromptType) : bool :=
  match prompt with
  | Singleton _ => true
  | Explicit p =>
      negb (is_None (ExplicitEncoderDecoderPrompt.decoder_prompt p))
      && negb (is_None (ExplicitEncoderDecoderPrompt.mm_processor_kwargs p))
  end.

(** The token ids of a result of either shape. *)
Definition result_prompt_token_ids (r : ProcessorInputs) : list Z :=
  match r with
  | DecoderOnly inputs => DecoderOnlyInputs.prompt_token_ids inputs
  | EncoderDecoder inputs => EncoderDecoderInputs.prompt_token_ids inputs
  end.

(** The display text a singleton prompt carries, if any. *)
Definition singleton_text (prompt : SingletonPrompt) : option string :=
  match parse_singleton_prompt prompt with
  | ParsedStrPrompt content => Some content
  | ParsedTokensPrompt _ => None
  | ParsedTextPrompt content => Some (TextPrompt.prompt content)
  end.

(** The processor options a singleton prompt carries, if any. *)
Definition singleton_mm_processor_kwargs (prompt : SingletonPrompt)
  : option Dict :=
  match parse_singleton_prompt prompt with
  | ParsedStrPrompt _ => None
  | ParsedTokensPrompt content => TokensPrompt.mm_processor_kwargs content
  | ParsedTextPrompt content => TextPrompt.mm_processor_kwargs content
  end.

(** The processor options written at the top level of an input: the
    pair's own key for an explicit pair, the prompt's for a singleton. *)
Definition top_level_mm_processor_kwargs (prompt : PromptType) : option Dict :=
  match prompt with
  | Singleton p => singleton_mm_processor_kwargs p
  | Explicit p => ExplicitEncoderDecoderPrompt.mm_processor_kwargs p
  end.

(** The exceptions the blocking entry point raises on purpose. *)
Definition is_documented_failure (e : Exn) : bool :=
  match e with
  | TokenizerUnavailable => true
  | IncompatiblePromptShape => true
  | UnsupportedMultiModalDecoderInput => true
  | MissingBosToken => true
  | MissingDecoderStartToken => true
  | KeyError _ => false
  | UnboundLocalError _ => false
  end.

(** The suspendable counterpart of a collaborator call. *)
Definition to_async (ev : Event) : Event :=
  match ev with
  | Encode request_id prompt lora_request =>
      EncodeAsync request_id prompt lora_request
  | other => other
  end.

(** ** Sample collaborators *)

Module Sample.

(** A tokenizer that maps a text to its character codes, with
    [bos_token_id = 1] and [eos_token_id = 2] for every adapter. *)
Definition char_codes (s : string) : list Z :=
  map (fun c => Z.of_N (Ascii.N_of_ascii c)) (list_ascii_of_string s).

Definition tokenizer_group : BaseTokenizerGroup :=
  {| get_lora_tokenizer := fun _ =>
       {| bos_token_id := Some 1; eos_token_id := Some 2 |};
     encode := fun _ prompt _ => char_codes prompt;
     encode_async := fun _ prompt _ => char_codes prompt |}.

(** An encoder/decoder model whose configuration sets
    [decoder_start_token_id = 5]. *)
Definition enc_dec : InputPreprocessor.t :=
  {| model_config :=
       {| ModelConfig.is_encoder_decoder_model := true;
          ModelConfig.hf_config :=
            Some {| decoder_start_token_id := Some 5 |} |};
     tokenizer := Some tokenizer_group |}.

(** An encoder/decoder model whose configuration has no
    [decoder_start_token_id]. *)
Definition enc_dec_no_start : InputPreprocessor.t :=
  {| model_config :=
       {| ModelConfig.is_encoder_decoder_model := true;
          ModelConfig.hf_config :=
            Some {| decoder_start_token_id := None |} |};
     tokenizer := Some tokenizer_group |}.

Definition decoder_only : InputPreprocessor.t :=
  {| model_config :=
       {| ModelConfig.is_encoder_decoder_model := false;
          ModelConfig.hf_config :=
            Some {| decoder_start_token_id := None |} |};
     tokenizer := Some tokenizer_group |}.

(** The encoder/decoder model started with [skip_tokenizer_init]. *)
Definition enc_dec_no_tokenizer : InputPreprocessor.t :=
  {| model_config := model_config enc_dec;
     tokenizer := None |}.

(** The same decoder-only model started with [skip_tokenizer_init]. *)
Definition decoder_only_no_tokenizer : InputPreprocessor.t :=
  {| model_config := model_config decoder_only;
     tokenizer := None |}.

Definition tokens (ids : list Z) (mm : option MultiModalDataDict)
  : SingletonPrompt :=
  PromptTokens {| TokensPrompt.prompt_token_ids := ids;
                  TokensPrompt.multi_modal_data := mm;
                  TokensPrompt.mm_processor_kwargs := None |}.

Definition image : MultiModalDataDict := [("image", AnyStr "cat.png")].

Definition pair (decoder : option SingletonPrompt) (kwargs : option Dict)
  : PromptType :=
  Explicit
    {| ExplicitEncoderDecoderPrompt.encoder_prompt := tokens [7; 8] None;
       ExplicitEncoderDecoderPrompt.decoder_prompt := decoder;
       ExplicitEncoderDecoderPrompt.mm_processor_kwargs := kwargs |}.

Definition lora : LoRARequest :=
  {| lora_name := "adapter"; lora_int_id := 1 |}.

Definition adapter (n : Z) : PromptAdapterRequest :=
  {| prompt_adapter_name := "soft-prompt";
     prompt_adapter_id := 1;
     prompt_adapter_num_virtual_tokens := n |}.

(** A decoder-only model whose configuration is not available. *)
Definition decoder_only_no_config : InputPreprocessor.t :=
  {| model_config :=
       {| ModelConfig.is_encoder_decoder_model := false;
          ModelConfig.hf_config := None |};
     tokenizer := Some tokenizer_group |}.

Definition text (prompt : string) (mm : option MultiModalDataDict)
    (kwargs : option Dict) : SingletonPrompt :=
  PromptText {| TextPrompt.prompt := prompt;
                TextPrompt.multi_modal_data := mm;
                TextPrompt.mm_processor_kwargs := kwargs |}.

Definition options : Dict := [("num_crops", AnyInt 4)].

End Sample.

(** ** The monad *)

Section RunLaws.

Context {A B C : Type}.

Lemma bind_ret_l (a : A) (k : A -> Run B) : bind (ret a) k = k a.
Proof. unfold bind, ret. destruct (k a); reflexivity. Qed.

Lemma bind_ret_r (m : Run A) : bind m ret = m.
Proof.
  destruct m as [tr [a | e]]; unfold bind, ret; simpl; [|reflexivity].
  now rewrite app_nil_r.
Qed.

Lemma bind_assoc (m : Run A) (k : A -> Run B) (h : B -> Run C) :
  bind (bind m k) h = bind m (fun a => bind (k a) h).
Proof.
  destruct m as [tr [a | e]]; unfold bind; simpl; [|reflexivity].
  destruct (k a) as [tr' [b | e]]; [|reflexivity].
  destruct (h b) as [tr'' r]. now rewrite app_assoc.
Qed.

Lemma outcome_bind (m : Run A) (k : A -> Run B) :
  outcome (bind m k) =
  match outcome m with
  | Ok a => outcome (k a)
  | Raise e => Raise e
  end.
Proof.
  destruct m as [tr [a | e]]; unfold bind, outcome; simpl; [|reflexivity].
  destruct (k a); reflexivity.
Qed.

Lemma trace_bind (m : Run A) (k : A -> Run B) :
  trace (bind m k) =
  match outcome m with
  | Ok a => trace m ++ trace (k a)
  | Raise _ => trace m
  end.
Proof.
  destruct m as [tr [a | e]]; unfold bind, outcome, trace; simpl;
    [|reflexivity].
  destruct (k a); reflexivity.
Qed.

Lemma outcome_gather (t1 : Run A) (t2 : Run B) :
  outcome (gather t1 t2) = outcome (a <- t1 ;; b <- t2 ;; ret (a, b)).
Proof.
  destruct t1 as [tr1 [a | e]], t2 as [tr2 [b | e']]; reflexivity.
Qed.

End RunLaws.

(** ** Decoder-prompt synthesis *)

(** The test of [_prepare_decoder_input_ids_for_generation], read on the
    head of the sequence. *)
Lemma needs_start_token (ids : list Z) (s : Z) :
  ((List.length ids =? 0)%nat || negb (nth 0 ids 0 =? s)) = true
  <-> hd_error ids <> Some s.
Proof.
  destruct ids as [|x tl]; simpl.
  - split; [discriminate | reflexivity].
  - rewrite negb_true_iff, Z.eqb_neq. split; congruence.
Qed.

Lemma prepare_given_ids (self : t) (s : Z) (d : list Z) (force_bos : bool) :
  outcome (get_decoder_start_token_id self) = Ok (Some s) ->
  outcome (_prepare_decoder_input_ids_for_generation self (Some d) force_bos) =
  Ok (if force_bos
         && ((List.length d =? 0)%nat || negb (nth 0 d 0 =? s))
      then s :: d else d).
Proof.
  intros Hs. unfold _prepare_decoder_input_ids_for_generation.
  rewrite outcome_bind, Hs, bind_ret_l.
  now destruct (force_bos && _).
Qed.

(** C3.  With [force_bos] set and the decoder-start token id resolved to
    [s], synthesis on a given decoder sequence [d] returns [[s] ++ d] when
    [d] is empty or its first element is not [s], and [d] itself when its
    first element is [s]. *)
Theorem prepare_decoder_input_ids_force_bos (self : t) (s : Z) (d : list Z) :
  outcome (get_decoder_start_token_id self) = Ok (Some s) ->
  (hd_error d <> Some s ->
     outcome (_prepare_decoder_input_ids_for_generation self (Some d) true)
     = Ok ([s] ++ d))
  /\ (hd_error d = Some s ->
     outcome (_prepare_decoder_input_ids_for_generation self (Some d) true)
     = Ok d).
Proof.
  intros Hs.
  pose proof (prepare_given_ids self s d true Hs) as H.
  rewrite andb_true_l in H.
  destruct ((List.length d =? 0)%nat || negb (nth 0 d 0 =? s)) eqn:E.
  - apply needs_start_token in E. split; [intros _; exact H | contradiction].
  - split; [| intros _; exact H].
    intros Hd. apply needs_start_token in Hd. congruence.
Qed.

Lemma prepare_decoder_input_ids_force_bos_witness :
  outcome (_prepare_decoder_input_ids_for_generation
             Sample.enc_dec (Some [1; 2]) true) = Ok [5; 1; 2]
  /\ outcome (_prepare_decoder_input_ids_for_generation
                Sample.enc_dec (Some [5; 1; 2]) true) = Ok [5; 1; 2].
Proof.
  split.
  - apply (proj1 (prepare_decoder_input_ids_force_bos
                    Sample.enc_dec 5 [1; 2] eq_refl)).
    discriminate.
  - apply (proj2 (prepare_decoder_input_ids_force_bos
                    Sample.enc_dec 5 [5; 1; 2] eq_refl)).
    reflexivity.
Defined.

(** ** Adapter token splicing *)

(** C8.  Splicing prepends as many zeros as the attached prompt adapter has
    virtual tokens and leaves the sequence alone when no adapter is
    attached; with zero virtual tokens it changes nothing; with three of
    them the decoder-only assembly of [[7, 8]] is [[0, 0, 0, 7, 8]]; and
    splicing adds no failure to decoder-only processing, which raises only
    what extraction raises. *)
Theorem apply_prompt_adapter_splice (ids : list Z) :
  (forall par,
     _apply_prompt_adapter ids (Some par)
     = repeat 0 (Z.to_nat (prompt_adapter_num_virtual_tokens par)) ++ ids)
  /\ _apply_prompt_adapter ids None = ids
  /\ (forall name id,
        _apply_prompt_adapter ids
          (Some {| prompt_adapter_name := name;
                   prompt_adapter_id := id;
                   prompt_adapter_num_virtual_tokens := 0 |}) = ids)
  /\ (forall name id prompt mm kwargs,
        DecoderOnlyInputs.prompt_token_ids
          (_build_decoder_only_llm_inputs (prompt, [7; 8], mm, kwargs)
             (Some {| prompt_adapter_name := name;
                      prompt_adapter_id := id;
                      prompt_adapter_num_virtual_tokens := 3 |}))
        = [0; 0; 0; 7; 8])
  /\ (forall self prompt request_id lora_request par,
        outcome (_process_decoder_only_prompt self prompt request_id
                   lora_request par)
        = match outcome (_extract_prompt_components self prompt request_id
                           lora_request) with
          | Ok comps => Ok (_build_decoder_only_llm_inputs comps par)
          | Raise e => Raise e
          end).
Proof.
  repeat split; try reflexivity.
  intros. unfold _process_decoder_only_prompt. rewrite outcome_bind.
  now destruct (outcome _).
Qed.

(** ** Rejected inputs *)

(** C4.  A model that is not encoder/decoder rejects an explicit
    encoder/decoder pair with [IncompatiblePromptShape], in the blocking and
    in the suspendable entry point, before any collaborator is called. *)
Theorem preprocess_rejects_pair_for_decoder_only
    (self : t) (prompt : PromptType) (request_id : string)
    (lora_request : option LoRARequest)
    (par : option PromptAdapterRequest) :
  is_encoder_decoder_model self = false ->
  is_explicit_encoder_decoder_prompt prompt = true ->
  preprocess self prompt request_id lora_request par
  = ([], Raise IncompatiblePromptShape)
  /\ preprocess_async self prompt request_id lora_request par
     = ([], Raise IncompatiblePromptShape).
Proof.
  intros Hmodel Hpair. unfold preprocess, preprocess_async.
  rewrite Hmodel. destruct prompt; [discriminate Hpair | now split].
Qed.

Lemma preprocess_rejects_pair_for_decoder_only_witness :
  preprocess Sample.decoder_only
    (Sample.pair (Some (Sample.tokens [1; 2] None)) (Some []))
    "request-0" (Some Sample.lora) (Some (Sample.adapter 3))
  = ([], Raise IncompatiblePromptShape)
  /\ preprocess_async Sample.decoder_only
       (Sample.pair (Some (Sample.tokens [1; 2] None)) (Some []))
       "request-0" (Some Sample.lora) (Some (Sample.adapter 3))
     = ([], Raise IncompatiblePromptShape).
Proof.
  apply preprocess_rejects_pair_for_decoder_only; reflexivity.
Defined.

(** C5.  When the decoder-side components carry a multi-modal payload,
    assembly raises [UnsupportedMultiModalDecoderInput] and does nothing
    else: whatever the state of the preprocessor, also one in which
    synthesis would raise, no special token is looked up and no warning is
    issued. *)
Theorem build_enc_dec_rejects_decoder_payload
    (self : t) (encoder_comps : PromptComponents)
    (decoder_prompt : option string) (decoder_prompt_ids : option (list Z))
    (decoder_mm_data : MultiModalDataDict) (decoder_kwargs : option Dict)
    (mm_processor_kwargs : Dict) :
  _build_enc_dec_llm_inputs self encoder_comps
    (decoder_prompt, decoder_prompt_ids, Some decoder_mm_data, decoder_kwargs)
    mm_processor_kwargs
  = ([], Raise UnsupportedMultiModalDecoderInput).
Proof.
  destruct encoder_comps as [[[encoder_prompt encoder_prompt_ids] mm] kw].
  reflexivity.
Qed.

(** ** Extraction *)

(** C6.  Without a tokenizer, extraction of a plain-string or
    text-with-metadata prompt raises [TokenizerUnavailable], in the blocking
    and in the suspendable form. *)
Theorem extract_text_without_tokenizer
    (self : t) (prompt : SingletonPrompt) (request_id : string)
    (lora_request : option LoRARequest) :
  tokenizer self = None ->
  is_text_prompt prompt = true ->
  _extract_prompt_components self prompt request_id lora_request
  = ([], Raise TokenizerUnavailable)
  /\ _extract_prompt_components_async self prompt request_id lora_request
     = ([], Raise TokenizerUnavailable).
Proof.
  intros Htok Htext.
  unfold _extract_prompt_components, _extract_prompt_components_async,
    _tokenize_prompt, _tokenize_prompt_async, get_tokenizer_group.
  unfold is_text_prompt in Htext. rewrite Htok.
  destruct (parse_singleton_prompt prompt);
    [now split | discriminate Htext | now split].
Qed.

Lemma extract_text_without_tokenizer_witness :
  _extract_prompt_components Sample.decoder_only_no_tokenizer
    (PromptStr "hello") "request-0" None
  = ([], Raise TokenizerUnavailable)
  /\ _extract_prompt_components_async Sample.decoder_only_no_tokenizer
       (PromptStr "hello") "request-0" None
     = ([], Raise TokenizerUnavailable).
Proof.
  apply extract_text_without_tokenizer; reflexivity.
Defined.

(** C7.  Extraction of a pre-tokenized prompt returns its token ids, a null
    text, and its payload and processor options as they are, in both forms;
    it calls no collaborator, so it succeeds whether or not a tokenizer is
    configured. *)
Theorem extract_tokens_passthrough
    (self : t) (content : TokensPrompt.t) (request_id : string)
    (lora_request : option LoRARequest) :
  _extract_prompt_components self (PromptTokens content) request_id
    lora_request
  = ([], Ok (None,
             TokensPrompt.prompt_token_ids content,
             TokensPrompt.multi_modal_data content,
             TokensPrompt.mm_processor_kwargs content))
  /\ _extract_prompt_components_async self (PromptTokens content) request_id
       lora_request
     = ([], Ok (None,
                TokensPrompt.prompt_token_ids content,
                TokensPrompt.multi_modal_data content,
                TokensPrompt.mm_processor_kwargs content)).
Proof. split; reflexivity. Qed.

(** ** Reasoning on traces and outcomes of composed computations *)

Section BindInversion.

Context {A B : Type}.

Lemma outcome_bind_Ok (m : Run A) (k : A -> Run B) (b : B) :
  outcome (bind m k) = Ok b ->
  exists a, outcome m = Ok a /\ outcome (k a) = Ok b.
Proof.
  rewrite outcome_bind. destruct (outcome m) as [a | e]; [|discriminate].
  intros H. now exists a.
Qed.

Lemma Forall_trace_bind (P : Event -> Prop) (m : Run A) (k : A -> Run B) :
  Forall P (trace m) ->
  (forall a, outcome m = Ok a -> Forall P (trace (k a))) ->
  Forall P (trace (bind m k)).
Proof.
  intros Hm Hk. rewrite trace_bind.
  destruct (outcome m) as [a | e] eqn:E; [|exact Hm].
  apply Forall_app. split; [exact Hm | now apply Hk].
Qed.

End BindInversion.

Lemma Forall_trace_ret {A : Type} (P : Event -> Prop) (a : A) :
  Forall P (trace (ret a)).
Proof. constructor. Qed.

Lemma Forall_trace_raise {A : Type} (P : Event -> Prop) (e : Exn) :
  Forall P (trace (@raise A e)).
Proof. constructor. Qed.

Lemma Forall_trace_emit (P : Event -> Prop) (ev : Event) :
  P ev -> Forall P (trace (emit ev)).
Proof. intros H. constructor; [exact H | constructor]. Qed.

(** ** The LoRA selector and the prompt-adapter selector on the
       encoder/decoder path *)

Ltac trace_step :=
  first
    [ apply Forall_trace_bind; [| intros ? _]
    | apply Forall_trace_ret
    | apply Forall_trace_raise
    | apply Forall_trace_emit; reflexivity ].

Lemma extract_without_lora (self : t) (prompt : SingletonPrompt)
    (request_id : string) :
  Forall without_lora
    (trace (_extract_prompt_components self prompt request_id None)).
Proof.
  unfold _extract_prompt_components, _tokenize_prompt, get_tokenizer_group.
  destruct (parse_singleton_prompt prompt), (tokenizer self);
    repeat trace_step.
Qed.

Lemma get_bos_without_lora (self : t) :
  Forall without_lora (trace (get_bos_token_id self None)).
Proof.
  unfold get_bos_token_id. destruct (tokenizer self); repeat trace_step.
Qed.

Lemma get_decoder_start_without_lora (self : t) :
  Forall without_lora (trace (get_decoder_start_token_id self)).
Proof.
  unfold get_decoder_start_token_id.
  destruct (negb _); [repeat trace_step|].
  destruct (ModelConfig.hf_config _) as [hf|]; [|repeat trace_step].
  destruct (decoder_start_token_id hf); repeat trace_step.
  apply get_bos_without_lora.
Qed.

Lemma prepare_without_lora (self : t) (ids : option (list Z)) (b : bool) :
  Forall without_lora
    (trace (_prepare_decoder_input_ids_for_generation self ids b)).
Proof.
  unfold _prepare_decoder_input_ids_for_generation.
  trace_step; [apply get_decoder_start_without_lora|].
  destruct a as [s|]; [|trace_step].
  trace_step.
  - destruct ids; [trace_step|].
    unfold _get_default_enc_dec_decoder_prompt.
    trace_step; [apply get_bos_without_lora|].
    destruct a; trace_step.
  - destruct (b && _); trace_step.
Qed.

Lemma build_enc_dec_without_lora (self : t) (encoder_comps : PromptComponents)
    (decoder_comps : DecoderPromptComponents) (kwargs : Dict) :
  Forall without_lora
    (trace (_build_enc_dec_llm_inputs self encoder_comps decoder_comps kwargs)).
Proof.
  destruct encoder_comps as [[[ep eids] emm] ekw].
  destruct decoder_comps as [[[dp dids] dmm] dkw].
  unfold _build_enc_dec_llm_inputs.
  destruct (negb (is_None dmm)); [trace_step|].
  trace_step; [apply prepare_without_lora | trace_step].
Qed.

Lemma process_enc_dec_without_lora (self : t) (prompt : PromptType)
    (request_id : string) :
  Forall without_lora
    (trace (_process_encoder_decoder_prompt self prompt request_id)).
Proof.
  unfold _process_encoder_decoder_prompt.
  destruct prompt as [p | p].
  - trace_step; [apply extract_without_lora|].
    apply build_enc_dec_without_lora.
  - trace_step; [apply extract_without_lora|].
    trace_step; [| apply build_enc_dec_without_lora].
    destruct (ExplicitEncoderDecoderPrompt.decoder_prompt p); [|trace_step].
    trace_step; [apply extract_without_lora | trace_step].
Qed.

Lemma build_enc_dec_encoder_ids (self : t) (encoder_comps : PromptComponents)
    (decoder_comps : DecoderPromptComponents) (kwargs : Dict)
    (e : EncoderDecoderInputs.t) :
  outcome (_build_enc_dec_llm_inputs self encoder_comps decoder_comps kwargs)
  = Ok e ->
  exists text mm kw,
    encoder_comps
    = (text, EncoderDecoderInputs.encoder_prompt_token_ids e, mm, kw).
Proof.
  destruct encoder_comps as [[[ep eids] emm] ekw].
  destruct decoder_comps as [[[dp dids] dmm] dkw].
  unfold _build_enc_dec_llm_inputs.
  destruct (negb (is_None dmm)); [discriminate|].
  intros H. apply outcome_bind_Ok in H. destruct H as (ids & _ & H).
  injection H as <-. now exists ep, emm, ekw.
Qed.

Lemma process_enc_dec_encoder_ids (self : t) (prompt : PromptType)
    (request_id : string) (e : EncoderDecoderInputs.t) :
  outcome (_process_encoder_decoder_prompt self prompt request_id) = Ok e ->
  exists text mm kw,
    outcome (_extract_prompt_components self (encoder_side prompt)
               request_id None)
    = Ok (text, EncoderDecoderInputs.encoder_prompt_token_ids e, mm, kw).
Proof.
  unfold _process_encoder_decoder_prompt.
  destruct prompt as [p | p]; simpl; intros H;
    apply outcome_bind_Ok in H; destruct H as (encoder_comps & Henc & H).
  - apply build_enc_dec_encoder_ids in H. destruct H as (text & mm & kw & ->).
    now exists text, mm, kw.
  - apply outcome_bind_Ok in H. destruct H as (decoder_comps & _ & H).
    apply build_enc_dec_encoder_ids in H. destruct H as (text & mm & kw & ->).
    now exists text, mm, kw.
Qed.

(** ** The decoder side synthesised for a singleton prompt *)

Lemma get_bos_with_tokenizer (self : t) (tg : BaseTokenizerGroup) :
  tokenizer self = Some tg ->
  outcome (get_bos_token_id self None)
  = Ok (bos_token_id (get_lora_tokenizer tg None)).
Proof. intros H. unfold get_bos_token_id. now rewrite H. Qed.

Lemma get_decoder_start_resolved (self : t) (tg : BaseTokenizerGroup)
    (hf : HfConfig) (b : Z) :
  is_encoder_decoder_model self = true ->
  tokenizer self = Some tg ->
  bos_token_id (get_lora_tokenizer tg None) = Some b ->
  ModelConfig.hf_config (model_config self) = Some hf ->
  outcome (get_decoder_start_token_id self)
  = Ok (Some match decoder_start_token_id hf with
             | Some s => s
             | None => b
             end).
Proof.
  intros Hmodel Htok Hbos Hhf. unfold get_decoder_start_token_id.
  rewrite Hmodel, Hhf. cbv [negb].
  destruct (decoder_start_token_id hf); [reflexivity|].
  rewrite outcome_bind. cbn [emit outcome snd].
  now rewrite (get_bos_with_tokenizer self tg Htok), Hbos.
Qed.

Lemma extract_with_tokenizer (self : t) (tg : BaseTokenizerGroup)
    (prompt : SingletonPrompt) (request_id : string)
    (lora_request : option LoRARequest) :
  tokenizer self = Some tg ->
  exists text ids kw,
    outcome (_extract_prompt_components self prompt request_id lora_request)
    = Ok (text, ids, singleton_multi_modal_data prompt, kw).
Proof.
  intros Htok.
  unfold _extract_prompt_components, singleton_multi_modal_data,
    _tokenize_prompt, get_tokenizer_group.
  rewrite Htok.
  destruct (parse_singleton_prompt prompt); simpl; eauto.
Qed.

Lemma prepare_absent_decoder (self : t) (s b : Z) (force_bos : bool) :
  outcome (get_decoder_start_token_id self) = Ok (Some s) ->
  outcome (get_bos_token_id self None) = Ok (Some b) ->
  outcome (_prepare_decoder_input_ids_for_generation self None force_bos)
  = Ok (if force_bos && negb (b =? s) then [s; b] else [b]).
Proof.
  intros Hs Hb. unfold _prepare_decoder_input_ids_for_generation.
  rewrite outcome_bind, Hs, outcome_bind.
  unfold _get_default_enc_dec_decoder_prompt.
  rewrite outcome_bind, Hb. simpl.
  now destruct (force_bos && negb (b =? s)).
Qed.

(** C2, as the code has it.  On an encoder/decoder model whose tokenizer is
    present with a BOS token id [b] and whose [hf_config] is available,
    [preprocess] of a singleton prompt returns an [EncoderDecoder] result.
    Its decoder token ids are [[s, b]] when the prompt carries no
    multi-modal payload and [s] differs from [b], and [[b]] otherwise, where
    [s] is the resolved decoder-start token id; so they begin with [s]
    whenever the prompt carries no multi-modal payload or [s = b].  When the
    configuration has no [decoder_start_token_id], [s] is [b]. *)
Theorem singleton_decoder_ids_begin_with_start
    (self : t) (prompt : SingletonPrompt) (request_id : string)
    (lora_request : option LoRARequest) (par : option PromptAdapterRequest)
    (tg : BaseTokenizerGroup) (b : Z) (hf : HfConfig) :
  is_encoder_decoder_model self = true ->
  tokenizer self = Some tg ->
  bos_token_id (get_lora_tokenizer tg None) = Some b ->
  ModelConfig.hf_config (model_config self) = Some hf ->
  exists e s,
    outcome (preprocess self (Singleton prompt) request_id lora_request par)
    = Ok (EncoderDecoder e)
    /\ outcome (get_decoder_start_token_id self) = Ok (Some s)
    /\ (decoder_start_token_id hf = None -> s = b)
    /\ EncoderDecoderInputs.prompt_token_ids e
       = (if is_None (singleton_multi_modal_data prompt) && negb (b =? s)
          then [s; b] else [b])
    /\ (singleton_multi_modal_data prompt = None \/ s = b ->
        hd_error (EncoderDecoderInputs.prompt_token_ids e) = Some s).
Proof.
  intros Hmodel Htok Hbos Hhf.
  pose proof (get_decoder_start_resolved self tg hf b Hmodel Htok Hbos Hhf)
    as Hs.
  pose proof (get_bos_with_tokenizer self tg Htok) as Hb. rewrite Hbos in Hb.
  destruct (extract_with_tokenizer self tg prompt request_id None Htok)
    as (text & ids & kw & Hext).
  set (s := match decoder_start_token_id hf with
            | Some s => s
            | None => b
            end) in *.
  set (mm := singleton_multi_modal_data prompt) in *.
  pose proof (prepare_absent_decoder self s b (is_None mm) Hs Hb) as Hprep.
  eexists _, s.
  split; [| split; [exact Hs | split; [| split]]].
  - unfold preprocess. rewrite Hmodel, outcome_bind.
    unfold _process_encoder_decoder_prompt. rewrite outcome_bind, Hext.
    unfold _build_enc_dec_llm_inputs. cbn [negb is_None].
    rewrite outcome_bind, andb_true_r, Hprep.
    reflexivity.
  - intros Hnone. subst s. now rewrite Hnone.
  - reflexivity.
  - simpl. intros [Hmm | Heq].
    + rewrite Hmm. simpl. destruct (Z.eqb_spec b s); simpl; congruence.
    + rewrite Heq, Z.eqb_refl, andb_false_r. reflexivity.
Qed.

Lemma singleton_decoder_ids_begin_with_start_witness :
  exists e s,
    outcome (preprocess Sample.enc_dec_no_start (Singleton (PromptStr "hi"))
               "request-0" None None)
    = Ok (EncoderDecoder e)
    /\ outcome (get_decoder_start_token_id Sample.enc_dec_no_start)
       = Ok (Some s)
    /\ (@None Z = None -> s = 1)
    /\ EncoderDecoderInputs.prompt_token_ids e
       = (if is_None (singleton_multi_modal_data (PromptStr "hi"))
             && negb (1 =? s)
          then [s; 1] else [1])
    /\ (singleton_multi_modal_data (PromptStr "hi") = None \/ s = 1 ->
        hd_error (EncoderDecoderInputs.prompt_token_ids e) = Some s).
Proof.
  apply (singleton_decoder_ids_begin_with_start Sample.enc_dec_no_start
           (PromptStr "hi") "request-0" None None Sample.tokenizer_group 1
           {| decoder_start_token_id := None |});
    reflexivity.
Defined.

(** C2, as stated, fails.  With a multi-modal payload on the prompt and a
    configured decoder-start token id 5 other than the BOS token id 1, the
    decoder token ids of the result are [[1]]: they do not begin with 5.  And
    not every singleton prompt yields a result: without a tokenizer a text
    prompt, and also a pre-tokenized one, makes [preprocess] raise. *)
Lemma singleton_with_payload_begins_with_bos :
  is_encoder_decoder_model Sample.enc_dec = true
  /\ outcome (get_decoder_start_token_id Sample.enc_dec) = Ok (Some 5)
  /\ (exists e,
        outcome (preprocess Sample.enc_dec
                   (Singleton (Sample.tokens [7; 8] (Some Sample.image)))
                   "request-0" None None)
        = Ok (EncoderDecoder e)
        /\ EncoderDecoderInputs.prompt_token_ids e = [1]
        /\ hd_error (EncoderDecoderInputs.prompt_token_ids e) <> Some 5)
  /\ is_encoder_decoder_model Sample.enc_dec_no_tokenizer = true
  /\ outcome (preprocess Sample.enc_dec_no_tokenizer
                (Singleton (PromptStr "hi")) "request-0" None None)
     = Raise TokenizerUnavailable
  /\ outcome (preprocess Sample.enc_dec_no_tokenizer
                (Singleton (Sample.tokens [7; 8] None)) "request-0" None None)
     = Raise MissingBosToken.
Proof.
  repeat split; try reflexivity.
  eexists. repeat split; try reflexivity. discriminate.
Qed.

(** ** The token ids of a result *)

Lemma get_default_decoder_prompt_Ok (self : t) (ids : list Z) :
  outcome (_get_default_enc_dec_decoder_prompt self) = Ok ids ->
  exists b, outcome (get_bos_token_id self None) = Ok (Some b) /\ ids = [b].
Proof.
  unfold _get_default_enc_dec_decoder_prompt. intros H.
  apply outcome_bind_Ok in H. destruct H as ([b|] & Hb & H);
    [| discriminate H].
  injection H as <-. now exists b.
Qed.

(** What synthesis returns when it returns: a list made of the resolved
    decoder-start token id, the BOS token id and the ids it was given. *)
Lemma prepare_decoder_input_ids_Ok
    (self : t) (decoder_input_ids : option (list Z)) (force_bos : bool)
    (out : list Z) :
  outcome (_prepare_decoder_input_ids_for_generation self decoder_input_ids
             force_bos) = Ok out ->
  exists s,
    outcome (get_decoder_start_token_id self) = Ok (Some s)
    /\ match decoder_input_ids with
       | None =>
           exists b,
             outcome (get_bos_token_id self None) = Ok (Some b)
             /\ (out = [b] \/ out = [s; b])
       | Some ids => out = ids \/ out = s :: ids
       end.
Proof.
  unfold _prepare_decoder_input_ids_for_generation. intros H.
  apply outcome_bind_Ok in H. destruct H as ([s|] & Hs & H);
    [| discriminate H].
  exists s. split; [exact Hs|].
  apply outcome_bind_Ok in H. destruct H as (ids & Hids & H).
  assert (Hout : out = ids \/ out = s :: ids).
  { destruct (force_bos && _); injection H as <-; [now right | now left]. }
  destruct decoder_input_ids as [given|].
  - injection Hids as <-. exact Hout.
  - apply get_default_decoder_prompt_Ok in Hids.
    destruct Hids as (b & Hb & ->). now exists b.
Qed.

Lemma build_enc_dec_decoder_ids (self : t) (encoder_comps : PromptComponents)
    (decoder_comps : DecoderPromptComponents) (kwargs : Dict)
    (e : EncoderDecoderInputs.t) :
  outcome (_build_enc_dec_llm_inputs self encoder_comps decoder_comps kwargs)
  = Ok e ->
  exists force_bos,
    outcome (_prepare_decoder_input_ids_for_generation self
               (snd (fst (fst decoder_comps))) force_bos)
    = Ok (EncoderDecoderInputs.prompt_token_ids e).
Proof.
  destruct encoder_comps as [[[ep eids] emm] ekw].
  destruct decoder_comps as [[[dp dids] dmm] dkw].
  unfold _build_enc_dec_llm_inputs.
  destruct (negb (is_None dmm)); [discriminate|].
  intros H. apply outcome_bind_Ok in H. destruct H as (ids & Hids & H).
  injection H as <-. eexists. exact Hids.
Qed.

(** C9.  Whenever [preprocess] succeeds, the token ids of its result are a
    list put together from values that are all present.  For a [DecoderOnly]
    result they are the adapter's placeholder zeros followed by the
    extracted ids (the zeros alone when the prompt has no ids).  For an
    [EncoderDecoder] result the decoder-start token id was resolved to
    some [s]; when the decoder side was absent the BOS token id [b] was
    resolved too and the ids are [[b]] or [[s, b]]; when it was given,
    they are the ids extracted from it, with or without [s] in front. *)
Theorem preprocess_token_ids_present
    (self : t) (prompt : PromptType) (request_id : string)
    (lora_request : option LoRARequest) (par : option PromptAdapterRequest)
    (r : ProcessorInputs) :
  outcome (preprocess self prompt request_id lora_request par) = Ok r ->
  match r with
  | DecoderOnly d =>
      exists p text ids mm kw,
        prompt = Singleton p
        /\ outcome (_extract_prompt_components self p request_id lora_request)
           = Ok (text, ids, mm, kw)
        /\ result_prompt_token_ids r = _apply_prompt_adapter ids par
  | EncoderDecoder e =>
      exists s,
        outcome (get_decoder_start_token_id self) = Ok (Some s)
        /\ match decoder_side prompt with
           | None =>
               exists b,
                 outcome (get_bos_token_id self None) = Ok (Some b)
                 /\ (result_prompt_token_ids r = [b]
                     \/ result_prompt_token_ids r = [s; b])
           | Some decoder_input =>
               exists text ids mm kw,
                 outcome (_extract_prompt_components self decoder_input
                            request_id None)
                 = Ok (text, ids, mm, kw)
                 /\ (result_prompt_token_ids r = ids
                     \/ result_prompt_token_ids r = s :: ids)
           end
  end.
Proof.
  unfold preprocess.
  destruct (is_encoder_decoder_model self).
  - intros H. apply outcome_bind_Ok in H. destruct H as (e & He & H).
    injection H as <-. simpl result_prompt_token_ids.
    unfold _process_encoder_decoder_prompt in He.
    destruct prompt as [p | p]; simpl decoder_side;
      apply outcome_bind_Ok in He; destruct He as (encoder_comps & _ & He).
    + apply build_enc_dec_decoder_ids in He. destruct He as (fb & He).
      apply prepare_decoder_input_ids_Ok in He. exact He.
    + apply outcome_bind_Ok in He. destruct He as (decoder_comps & Hdec & He).
      apply build_enc_dec_decoder_ids in He. destruct He as (fb & He).
      apply prepare_decoder_input_ids_Ok in He. destruct He as (s & Hs & He).
      exists s. split; [exact Hs|].
      destruct (ExplicitEncoderDecoderPrompt.decoder_prompt p) as [dp|].
      * apply outcome_bind_Ok in Hdec.
        destruct Hdec as ([[[text ids] mm] kw] & Hext & Hdec).
        injection Hdec as <-. simpl in He.
        now exists text, ids, mm, kw.
      * injection Hdec as <-. exact He.
  - destruct prompt as [p | p]; [| discriminate].
    intros H. apply outcome_bind_Ok in H. destruct H as (d & Hd & H).
    injection H as <-.
    unfold _process_decoder_only_prompt in Hd.
    apply outcome_bind_Ok in Hd.
    destruct Hd as ([[[text ids] mm] kw] & Hext & Hd).
    injection Hd as <-.
    now exists p, text, ids, mm, kw.
Qed.

Lemma preprocess_token_ids_present_witness :
  (exists p text ids mm kw,
     Singleton (Sample.tokens [] None) = Singleton p
     /\ outcome (_extract_prompt_components Sample.decoder_only_no_tokenizer p
                   "request-0" None)
        = Ok (text, ids, mm, kw)
     /\ [0; 0; 0] = _apply_prompt_adapter ids (Some (Sample.adapter 3)))
  /\ (exists s,
        outcome (get_decoder_start_token_id Sample.enc_dec) = Ok (Some s)
        /\ exists b,
             outcome (get_bos_token_id Sample.enc_dec None) = Ok (Some b)
             /\ ([5; 1] = [b] \/ [5; 1] = [s; b])).
Proof.
  split.
  - exact (preprocess_token_ids_present Sample.decoder_only_no_tokenizer
             (Singleton (Sample.tokens [] None)) "request-0" None
             (Some (Sample.adapter 3)) _ eq_refl).
  - exact (preprocess_token_ids_present Sample.enc_dec
             (Singleton (Sample.tokens [7; 8] None)) "request-0"
             (Some Sample.lora) None _ eq_refl).
Defined.

(** ** The blocking and the suspendable entry points *)

Section AsyncAgreement.

Variable self : t.

(** The tokenizer's two forms of [encode] return the same ids. *)
Hypothesis encode_async_agrees :
  forall tg, tokenizer self = Some tg ->
  forall request_id prompt lora_request,
    encode_async tg request_id prompt lora_request
    = encode tg request_id prompt lora_request.

Lemma tokenize_async_agrees (prompt request_id : string)
    (lora_request : option LoRARequest) :
  outcome (_tokenize_prompt_async self prompt request_id lora_request)
  = outcome (_tokenize_prompt self prompt request_id lora_request).
Proof.
  unfold _tokenize_prompt_async, _tokenize_prompt, get_tokenizer_group.
  destruct (tokenizer self) as [tg|] eqn:E; [|reflexivity].
  rewrite bind_ret_l, !outcome_bind. simpl.
  now rewrite (encode_async_agrees tg eq_refl).
Qed.

Lemma extract_async_agrees (prompt : SingletonPrompt) (request_id : string)
    (lora_request : option LoRARequest) :
  outcome (_extract_prompt_components_async self prompt request_id
             lora_request)
  = outcome (_extract_prompt_components self prompt request_id lora_request).
Proof.
  unfold _extract_prompt_components_async, _extract_prompt_components.
  destruct (parse_singleton_prompt prompt); [| reflexivity |];
    now rewrite !outcome_bind, tokenize_async_agrees.
Qed.

Lemma process_enc_dec_async_agrees (prompt : PromptType)
    (request_id : string) :
  pair_is_complete prompt = true ->
  outcome (_process_encoder_decoder_prompt_async self prompt request_id)
  = outcome (_process_encoder_decoder_prompt self prompt request_id).
Proof.
  unfold _process_encoder_decoder_prompt_async,
    _process_encoder_decoder_prompt, pair_is_complete.
  destruct prompt as [p | p].
  - intros _. rewrite bind_assoc, !outcome_bind, extract_async_agrees.
    destruct (outcome (_extract_prompt_components _ _ _ _)) as [c|];
      [| reflexivity].
    cbv beta iota delta [bind ret load_local].
    now destruct (_build_enc_dec_llm_inputs _ _ _ _).
  - destruct (ExplicitEncoderDecoderPrompt.decoder_prompt p) as [dp|];
      [| discriminate].
    destruct (ExplicitEncoderDecoderPrompt.mm_processor_kwargs p) as [kw|];
      [| discriminate].
    intros _. unfold getitem.
    rewrite !bind_assoc, !outcome_bind, outcome_gather, !outcome_bind,
      extract_async_agrees.
    destruct (outcome (_extract_prompt_components _ (_ p) _ _)) as [ec|];
      [| reflexivity].
    rewrite !outcome_bind, extract_async_agrees.
    destruct (outcome (_extract_prompt_components _ dp _ _)) as [dc|];
      [| reflexivity].
    cbv beta iota delta [bind ret load_local outcome fst snd app].
    now destruct (_build_enc_dec_llm_inputs _ _ _ _).
Qed.

(** Outside the explicit pairs that lack a decoder prompt or the key
    [mm_processor_kwargs], the two entry points fail together or return the
    same value. *)
Lemma preprocess_async_agrees (prompt : PromptType) (request_id : string)
    (lora_request : option LoRARequest)
    (par : option PromptAdapterRequest) :
  is_encoder_decoder_model self = false \/ pair_is_complete prompt = true ->
  outcome (preprocess_async self prompt request_id lora_request par)
  = outcome (preprocess self prompt request_id lora_request par).
Proof.
  unfold preprocess_async, preprocess. intros H.
  destruct (is_encoder_decoder_model self).
  - destruct H as [H | H]; [discriminate|].
    now rewrite !outcome_bind, process_enc_dec_async_agrees.
  - destruct prompt as [p | p]; [| reflexivity].
    unfold _process_decoder_only_prompt_async, _process_decoder_only_prompt.
    now rewrite !outcome_bind, extract_async_agrees.
Qed.

End AsyncAgreement.

(** C1, evaluated where it fails.  On an encoder/decoder model, for an
    explicit pair without a decoder prompt the blocking entry point returns a
    result and the suspendable one raises [UnboundLocalError]; for an
    explicit pair with a decoder prompt and without the key
    [mm_processor_kwargs] the blocking entry point returns a result, with
    empty processor options, and the suspendable one raises [KeyError]. *)
Theorem preprocess_async_diverges_on_pair :
  outcome (preprocess Sample.enc_dec (Sample.pair None (Some []))
             "request-0" None None)
  = Ok (EncoderDecoder
          {| EncoderDecoderInputs.prompt_token_ids := [5; 1];
             EncoderDecoderInputs.prompt := None;
             EncoderDecoderInputs.multi_modal_data := None;
             EncoderDecoderInputs.mm_processor_kwargs := [];
             EncoderDecoderInputs.encoder_prompt_token_ids := [7; 8];
             EncoderDecoderInputs.encoder_prompt := None;
             EncoderDecoderInputs.encoder_multi_modal_data := None |})
  /\ outcome (preprocess_async Sample.enc_dec (Sample.pair None (Some []))
                "request-0" None None)
     = Raise (UnboundLocalError "mm_processor_kwargs")
  /\ outcome (preprocess Sample.enc_dec
                (Sample.pair (Some (Sample.tokens [1; 2] None)) None)
                "request-0" None None)
     = Ok (EncoderDecoder
             {| EncoderDecoderInputs.prompt_token_ids := [5; 1; 2];
                EncoderDecoderInputs.prompt := None;
                EncoderDecoderInputs.multi_modal_data := None;
                EncoderDecoderInputs.mm_processor_kwargs := [];
                EncoderDecoderInputs.encoder_prompt_token_ids := [7; 8];
                EncoderDecoderInputs.encoder_prompt := None;
                EncoderDecoderInputs.encoder_multi_modal_data := None |})
  /\ outcome (preprocess_async Sample.enc_dec
                (Sample.pair (Some (Sample.tokens [1; 2] None)) None)
                "request-0" None None)
     = Raise (KeyError "mm_processor_kwargs").
Proof. repeat split; reflexivity. Qed.

(** * Further properties of the pipeline *)

(** ** Special-token lookup *)

Lemma get_bos_never_raises (self : t) (lora_request : option LoRARequest) :
  exists v, outcome (get_bos_token_id self lora_request) = Ok v.
Proof.
  unfold get_bos_token_id. destruct (tokenizer self); eexists; reflexivity.
Qed.

Lemma get_decoder_start_never_raises (self : t) :
  exists v, outcome (get_decoder_start_token_id self) = Ok v.
Proof.
  unfold get_decoder_start_token_id.
  destruct (negb _); [eexists; reflexivity|].
  destruct (ModelConfig.hf_config _) as [hf|]; [|eexists; reflexivity].
  destruct (decoder_start_token_id hf); [eexists; reflexivity|].
  destruct (get_bos_never_raises self None) as (v & Hv).
  exists v. now rewrite outcome_bind.
Qed.

(** X1.  [get_decoder_start_token_id] never raises.  It returns [None] in three
    cases only: the model is not encoder/decoder; its [hf_config] is not
    available; or the configuration has no [decoder_start_token_id] and the
    BOS token id of the default adapter is [None] as well. *)
Theorem get_decoder_start_token_id_none_iff (self : t) :
  exists v,
    outcome (get_decoder_start_token_id self) = Ok v
    /\ (v = None <->
        is_encoder_decoder_model self = false
        \/ ModelConfig.hf_config (model_config self) = None
        \/ (exists hf,
              ModelConfig.hf_config (model_config self) = Some hf
              /\ decoder_start_token_id hf = None
              /\ outcome (get_bos_token_id self None) = Ok None)).
Proof.
  unfold get_decoder_start_token_id.
  destruct (is_encoder_decoder_model self); cbv [negb].
  2:{ exists None. split; [reflexivity | split; auto]. }
  destruct (ModelConfig.hf_config (model_config self)) as [hf|].
  2:{ exists None. split; [reflexivity | split; auto]. }
  destruct (decoder_start_token_id hf) as [s|] eqn:Es.
  - exists (Some s). split; [reflexivity|]. split; [discriminate|].
    intros [H | [H | (hf' & Hhf & H & _)]]; try discriminate.
    injection Hhf as <-. congruence.
  - destruct (get_bos_never_raises self None) as (v & Hv).
    exists v. rewrite outcome_bind. split; [exact Hv|]. split.
    + intros ->. right. right. now exists hf.
    + intros [H | [H | (hf' & _ & _ & H)]]; try discriminate. congruence.
Qed.

(** ** Decoder-prompt synthesis: failures, head, idempotence *)

Lemma has_start_token (ids : list Z) (s : Z) :
  ((List.length ids =? 0)%nat || negb (nth 0 ids 0 =? s)) = false ->
  hd_error ids = Some s.
Proof.
  destruct ids as [|x tl]; simpl; [discriminate|].
  rewrite negb_false_iff, Z.eqb_eq. now intros ->.
Qed.

Lemma prepare_decoder_input_ids_raises_iff_aux
    (self : t) (decoder_input_ids : option (list Z)) (force_bos : bool)
    (e : Exn) :
  outcome (_prepare_decoder_input_ids_for_generation self decoder_input_ids
             force_bos) = Raise e
  <-> (outcome (get_decoder_start_token_id self) = Ok None
       /\ e = MissingDecoderStartToken)
      \/ (exists s,
            outcome (get_decoder_start_token_id self) = Ok (Some s)
            /\ decoder_input_ids = None
            /\ outcome (get_bos_token_id self None) = Ok None
            /\ e = MissingBosToken).
Proof.
  unfold _prepare_decoder_input_ids_for_generation.
  rewrite outcome_bind.
  destruct (get_decoder_start_never_raises self) as ([s|] & Hs); rewrite Hs.
  2:{ cbn. split.
      - intros H. injection H as <-. now left.
      - intros [[_ ->] | (s & H & _)]; [reflexivity | discriminate]. }
  rewrite outcome_bind.
  destruct decoder_input_ids as [d|].
  - cbn [ret outcome snd]. split.
    + destruct (force_bos && _); discriminate.
    + intros [[H _] | (s' & _ & H & _)]; discriminate.
  - unfold _get_default_enc_dec_decoder_prompt. rewrite outcome_bind.
    destruct (get_bos_never_raises self None) as ([b|] & Hb); rewrite Hb.
    + cbn [ret outcome snd]. split.
      * destruct (force_bos && _); discriminate.
      * intros [[H _] | (s' & _ & _ & H & _)]; discriminate.
    + cbn. split.
      * intros H. injection H as <-. right. now exists s.
      * intros [[H _] | (s' & _ & _ & _ & ->)]; [discriminate | reflexivity].
Qed.

(** X2.  Synthesis raises in two situations only.  It raises
    [MissingDecoderStartToken] exactly when the decoder-start token id
    resolves to [None], whatever ids it is given and whatever [force_bos]
    is; and it raises [MissingBosToken] exactly when the decoder-start
    token id is resolved, no ids are given and the BOS token id is
    [None]. *)
Theorem prepare_decoder_input_ids_raises_iff
    (self : t) (decoder_input_ids : option (list Z)) (force_bos : bool)
    (e : Exn) :
  outcome (_prepare_decoder_input_ids_for_generation self decoder_input_ids
             force_bos) = Raise e
  <-> (outcome (get_decoder_start_token_id self) = Ok None
       /\ e = MissingDecoderStartToken)
      \/ (exists s,
            outcome (get_decoder_start_token_id self) = Ok (Some s)
            /\ decoder_input_ids = None
            /\ outcome (get_bos_token_id self None) = Ok None
            /\ e = MissingBosToken).
Proof. apply prepare_decoder_input_ids_raises_iff_aux. Qed.

Lemma prepare_decoder_input_ids_head_aux
    (self : t) (decoder_input_ids : option (list Z)) (out : list Z) :
  outcome (_prepare_decoder_input_ids_for_generation self decoder_input_ids
             true) = Ok out ->
  exists s,
    outcome (get_decoder_start_token_id self) = Ok (Some s)
    /\ hd_error out = Some s.
Proof.
  unfold _prepare_decoder_input_ids_for_generation. intros H.
  apply outcome_bind_Ok in H. destruct H as ([s|] & Hs & H);
    [| discriminate H].
  exists s. split; [exact Hs|].
  apply outcome_bind_Ok in H. destruct H as (ids & _ & H).
  rewrite andb_true_l in H.
  destruct ((List.length ids =? 0)%nat || negb (nth 0 ids 0 =? s)) eqn:E;
    injection H as <-; [reflexivity|].
  now apply has_start_token.
Qed.

(** X3.  With [force_bos] set, whatever synthesis returns begins with the
    resolved decoder-start token id, whether the ids were given or
    absent. *)
Theorem prepare_decoder_input_ids_head
    (self : t) (decoder_input_ids : option (list Z)) (out : list Z) :
  outcome (_prepare_decoder_input_ids_for_generation self decoder_input_ids
             true) = Ok out ->
  exists s,
    outcome (get_decoder_start_token_id self) = Ok (Some s)
    /\ hd_error out = Some s.
Proof. apply prepare_decoder_input_ids_head_aux. Qed.

Lemma prepare_decoder_input_ids_head_witness :
  exists s,
    outcome (get_decoder_start_token_id Sample.enc_dec) = Ok (Some s)
    /\ hd_error [5; 1] = Some s.
Proof.
  exact (prepare_decoder_input_ids_head Sample.enc_dec None [5; 1] eq_refl).
Defined.

(** X4.  Synthesis with [force_bos] is idempotent: given its own output back, with
    or without [force_bos], it returns it unchanged. *)
Theorem prepare_decoder_input_ids_idempotent
    (self : t) (decoder_input_ids : option (list Z)) (out : list Z)
    (force_bos : bool) :
  outcome (_prepare_decoder_input_ids_for_generation self decoder_input_ids
             true) = Ok out ->
  outcome (_prepare_decoder_input_ids_for_generation self (Some out)
             force_bos) = Ok out.
Proof.
  intros H. apply prepare_decoder_input_ids_head_aux in H.
  destruct H as (s & Hs & Hhd).
  rewrite (prepare_given_ids self s out force_bos Hs).
  destruct ((List.length out =? 0)%nat || negb (nth 0 out 0 =? s)) eqn:E.
  - apply needs_start_token in E. contradiction.
  - now rewrite andb_false_r.
Qed.

Lemma prepare_decoder_input_ids_idempotent_witness :
  outcome (_prepare_decoder_input_ids_for_generation Sample.enc_dec
             (Some [5; 1; 2]) true) = Ok [5; 1; 2].
Proof.
  exact (prepare_decoder_input_ids_idempotent Sample.enc_dec (Some [1; 2])
           [5; 1; 2] true eq_refl).
Defined.

Lemma prepare_decoder_input_ids_without_force_bos_aux
    (self : t) (decoder_input_ids : option (list Z)) (out : list Z) :
  outcome (_prepare_decoder_input_ids_for_generation self decoder_input_ids
             false) = Ok out ->
  match decoder_input_ids with
  | Some ids => out = ids
  | None => exists b, outcome (get_bos_token_id self None) = Ok (Some b)
                      /\ out = [b]
  end.
Proof.
  unfold _prepare_decoder_input_ids_for_generation. intros H.
  apply outcome_bind_Ok in H. destruct H as ([s|] & Hs & H);
    [| discriminate H].
  apply outcome_bind_Ok in H. destruct H as (ids & Hids & H).
  rewrite andb_false_l in H. injection H as <-.
  destruct decoder_input_ids as [given|].
  - now injection Hids as <-.
  - apply get_default_decoder_prompt_Ok in Hids.
    destruct Hids as (b & Hb & ->). now exists b.
Qed.

(** X5.  Without [force_bos], given ids are returned as they are, the empty
    sequence too, and absent ids become the BOS token id alone: the
    decoder-start token id must resolve but is not put in front. *)
Theorem prepare_decoder_input_ids_without_force_bos
    (self : t) (decoder_input_ids : option (list Z)) (out : list Z) :
  outcome (_prepare_decoder_input_ids_for_generation self decoder_input_ids
             false) = Ok out ->
  match decoder_input_ids with
  | Some ids => out = ids
  | None => exists b, outcome (get_bos_token_id self None) = Ok (Some b)
                      /\ out = [b]
  end.
Proof. apply prepare_decoder_input_ids_without_force_bos_aux. Qed.

Lemma prepare_decoder_input_ids_without_force_bos_witness :
  (@nil Z) = []
  /\ exists b, outcome (get_bos_token_id Sample.enc_dec None) = Ok (Some b)
               /\ [1] = [b].
Proof.
  split.
  - exact (prepare_decoder_input_ids_without_force_bos Sample.enc_dec
             (Some []) [] eq_refl).
  - exact (prepare_decoder_input_ids_without_force_bos Sample.enc_dec
             None [1] eq_refl).
Defined.

(** ** Adapter token splicing: bounds, length, composition *)

(** X6.  A prompt adapter whose virtual-token count is zero or negative leaves
    the token ids as they are. *)
Theorem apply_prompt_adapter_nonpositive
    (ids : list Z) (par : PromptAdapterRequest) :
  prompt_adapter_num_virtual_tokens par <= 0 ->
  _apply_prompt_adapter ids (Some par) = ids.
Proof.
  intros H. unfold _apply_prompt_adapter.
  replace (Z.to_nat (prompt_adapter_num_virtual_tokens par)) with 0%nat by lia.
  reflexivity.
Qed.

Lemma apply_prompt_adapter_nonpositive_witness :
  _apply_prompt_adapter [7; 8] (Some (Sample.adapter (-2))) = [7; 8].
Proof.
  apply apply_prompt_adapter_nonpositive. simpl. lia.
Defined.

(** X7.  Splicing lengthens the sequence by the virtual-token count, or by
    nothing when the count is negative; the added positions all hold 0 and
    dropping them gives the token ids back. *)
Theorem apply_prompt_adapter_length_and_suffix
    (ids : list Z) (par : PromptAdapterRequest) :
  let out := _apply_prompt_adapter ids (Some par) in
  let n := Z.to_nat (prompt_adapter_num_virtual_tokens par) in
  Z.of_nat (List.length out)
  = Z.max 0 (prompt_adapter_num_virtual_tokens par)
    + Z.of_nat (List.length ids)
  /\ Forall (fun x => x = 0) (firstn n out)
  /\ skipn n out = ids.
Proof.
  cbv zeta. unfold _apply_prompt_adapter.
  set (n := Z.to_nat (prompt_adapter_num_virtual_tokens par)).
  assert (Hn : List.length (repeat 0 n) = n) by apply repeat_length.
  repeat split.
  - rewrite length_app, Hn. subst n. lia.
  - rewrite firstn_app, Hn, Nat.sub_diag, firstn_O, app_nil_r.
    rewrite <- Hn at 1. rewrite firstn_all.
    apply Forall_forall. intros x Hx. now apply repeat_spec in Hx.
  - rewrite skipn_app, Hn, Nat.sub_diag. rewrite <- Hn at 1.
    now rewrite skipn_all.
Qed.

(** ** Extraction of text prompts *)

(** X8.  With a tokenizer, extraction of a plain-string or text-with-metadata
    prompt makes exactly one call to [encode], with the request id, the
    prompt's text and the LoRA selector it was given, and returns the text,
    the ids of that call, and the prompt's own payload and processor
    options (none for a plain string).  The suspendable form does the same
    with [encode_async]. *)
Theorem extract_text_with_tokenizer
    (self : t) (tg : BaseTokenizerGroup) (prompt : SingletonPrompt)
    (request_id : string) (lora_request : option LoRARequest) :
  tokenizer self = Some tg ->
  is_text_prompt prompt = true ->
  exists text,
    singleton_text prompt = Some text
    /\ _extract_prompt_components self prompt request_id lora_request
       = ([Encode request_id text lora_request],
          Ok (Some text,
              encode tg request_id text lora_request,
              singleton_multi_modal_data prompt,
              singleton_mm_processor_kwargs prompt))
    /\ _extract_prompt_components_async self prompt request_id lora_request
       = ([EncodeAsync request_id text lora_request],
          Ok (Some text,
              encode_async tg request_id text lora_request,
              singleton_multi_modal_data prompt,
              singleton_mm_processor_kwargs prompt)).
Proof.
  intros Htok Htext.
  unfold _extract_prompt_components, _extract_prompt_components_async,
    _tokenize_prompt, _tokenize_prompt_async, get_tokenizer_group,
    singleton_text, singleton_multi_modal_data, singleton_mm_processor_kwargs.
  unfold is_text_prompt in Htext. rewrite Htok.
  destruct (parse_singleton_prompt prompt) as [content | content | content];
    [| discriminate Htext |]; eexists; repeat split.
Qed.

Lemma extract_text_with_tokenizer_witness :
  exists text,
    singleton_text (Sample.text "hi" (Some Sample.image) (Some Sample.options))
    = Some text
    /\ _extract_prompt_components Sample.decoder_only
         (Sample.text "hi" (Some Sample.image) (Some Sample.options))
         "request-0" (Some Sample.lora)
       = ([Encode "request-0" text (Some Sample.lora)],
          Ok (Some text,
              encode Sample.tokenizer_group "request-0" text
                (Some Sample.lora),
              Some Sample.image,
              Some Sample.options))
    /\ _extract_prompt_components_async Sample.decoder_only
         (Sample.text "hi" (Some Sample.image) (Some Sample.options))
         "request-0" (Some Sample.lora)
       = ([EncodeAsync "request-0" text (Some Sample.lora)],
          Ok (Some text,
              encode_async Sample.tokenizer_group "request-0" text
                (Some Sample.lora),
              Some Sample.image,
              Some Sample.options)).
Proof.
  apply (extract_text_with_tokenizer Sample.decoder_only
           Sample.tokenizer_group
           (Sample.text "hi" (Some Sample.image) (Some Sample.options))
           "request-0" (Some Sample.lora));
    reflexivity.
Defined.

(** What extraction returns, in either form, when it returns: the
    prompt's own text, payload and processor options. *)
Lemma extract_components_views
    (self : t) (prompt : SingletonPrompt) (request_id : string)
    (lora_request : option LoRARequest) (comps : PromptComponents) :
  outcome (_extract_prompt_components self prompt request_id lora_request)
  = Ok comps ->
  exists ids,
    comps = (singleton_text prompt, ids, singleton_multi_modal_data prompt,
             singleton_mm_processor_kwargs prompt).
Proof.
  unfold _extract_prompt_components, _tokenize_prompt, get_tokenizer_group,
    singleton_text, singleton_multi_modal_data, singleton_mm_processor_kwargs.
  destruct (parse_singleton_prompt prompt), (tokenizer self); cbn;
    intros H; try discriminate H; injection H as <-; eexists; reflexivity.
Qed.

(** Extraction raises nothing but [TokenizerUnavailable], and raises it
    exactly on a text prompt without a tokenizer. *)
Lemma extract_raises_iff
    (self : t) (prompt : SingletonPrompt) (request_id : string)
    (lora_request : option LoRARequest) (e : Exn) :
  outcome (_extract_prompt_components self prompt request_id lora_request)
  = Raise e
  <-> is_text_prompt prompt = true /\ tokenizer self = None
      /\ e = TokenizerUnavailable.
Proof.
  unfold _extract_prompt_components, _tokenize_prompt, get_tokenizer_group,
    is_text_prompt.
  destruct (parse_singleton_prompt prompt), (tokenizer self); cbn;
    split; intros H;
    try discriminate H;
    try (destruct H as (H1 & H2 & H3); try discriminate; subst; reflexivity);
    injection H as <-; auto.
Qed.

Lemma extract_never_raises_with_tokenizer_or_tokens
    (self : t) (prompt : SingletonPrompt) (request_id : string)
    (lora_request : option LoRARequest) :
  is_text_prompt prompt && is_None (tokenizer self) = false ->
  exists comps,
    outcome (_extract_prompt_components self prompt request_id lora_request)
    = Ok comps.
Proof.
  intros H.
  destruct (outcome (_extract_prompt_components self prompt request_id
                       lora_request)) as [comps | e] eqn:E;
    [now exists comps|].
  apply extract_raises_iff in E. destruct E as (Ht & Hn & _).
  now rewrite Ht, Hn in H.
Qed.

Lemma outcome_bind_Raise {A B : Type} (m : Run A) (k : A -> Run B) (e : Exn) :
  outcome (bind m k) = Raise e ->
  outcome m = Raise e
  \/ exists a, outcome m = Ok a /\ outcome (k a) = Raise e.
Proof.
  rewrite outcome_bind. destruct (outcome m) as [a | e'].
  - intros H. right. now exists a.
  - intros H. left. now injection H as ->.
Qed.

(** ** The decoder-only path *)

(** X9.  On a model that is not encoder/decoder, [preprocess] raises in two
    situations only: [IncompatiblePromptShape] on an explicit pair, and
    [TokenizerUnavailable] on a text prompt when there is no tokenizer.  A
    pre-tokenized prompt never makes it raise. *)
Theorem decoder_only_preprocess_raises_iff
    (self : t) (prompt : PromptType) (request_id : string)
    (lora_request : option LoRARequest) (par : option PromptAdapterRequest)
    (e : Exn) :
  is_encoder_decoder_model self = false ->
  outcome (preprocess self prompt request_id lora_request par) = Raise e
  <-> (is_explicit_encoder_decoder_prompt prompt = true
       /\ e = IncompatiblePromptShape)
      \/ (exists p,
            prompt = Singleton p
            /\ is_text_prompt p = true
            /\ tokenizer self = None
            /\ e = TokenizerUnavailable).
Proof.
  intros Hmodel. unfold preprocess. rewrite Hmodel.
  destruct prompt as [p | p]; cbn [is_explicit_encoder_decoder_prompt].
  - unfold _process_decoder_only_prompt. rewrite !outcome_bind.
    pose proof (extract_raises_iff self p request_id lora_request e) as Hx.
    destruct (outcome (_extract_prompt_components _ _ _ _)) as [c | e0];
      cbn; split.
    + discriminate.
    + intros [[H _] | (p' & Hp & H)]; [discriminate H|].
      injection Hp as <-. apply Hx in H. discriminate H.
    + intros H. injection H as ->. right. exists p.
      split; [reflexivity | now apply Hx].
    + intros [[H _] | (p' & Hp & H)]; [discriminate H|].
      injection Hp as <-. apply Hx in H. now injection H as ->.
  - split.
    + intros H. injection H as <-. now left.
    + intros [[_ ->] | (p' & Hp & _)]; [reflexivity | discriminate Hp].
Qed.

Lemma decoder_only_preprocess_raises_iff_witness :
  outcome (preprocess Sample.decoder_only_no_tokenizer
             (Singleton (PromptStr "hi")) "request-0" None None)
  = Raise TokenizerUnavailable.
Proof.
  apply (decoder_only_preprocess_raises_iff Sample.decoder_only_no_tokenizer
           (Singleton (PromptStr "hi")) "request-0" None None
           TokenizerUnavailable eq_refl).
  right. exists (PromptStr "hi"). repeat split.
Defined.

(** X10.  On a model that is not encoder/decoder, [preprocess] calls no
    collaborator but the tokenizer's [encode], at most once, with the
    request's id and LoRA selector: it looks up no special token and issues
    no warning. *)
Theorem decoder_only_preprocess_calls
    (self : t) (prompt : PromptType) (request_id : string)
    (lora_request : option LoRARequest)
    (par : option PromptAdapterRequest) :
  is_encoder_decoder_model self = false ->
  (List.length (trace (preprocess self prompt request_id lora_request par))
   <= 1)%nat
  /\ Forall (fun ev => exists text, ev = Encode request_id text lora_request)
       (trace (preprocess self prompt request_id lora_request par)).
Proof.
  intros Hmodel. unfold preprocess. rewrite Hmodel.
  destruct prompt as [p | p]; [| split; [cbn; lia | constructor]].
  unfold _process_decoder_only_prompt, _extract_prompt_components,
    _tokenize_prompt, get_tokenizer_group.
  destruct (parse_singleton_prompt p), (tokenizer self); cbn;
    (split; [lia | repeat constructor; eexists; reflexivity]).
Qed.

Lemma decoder_only_preprocess_calls_witness :
  (List.length (trace (preprocess Sample.decoder_only
                         (Singleton (PromptStr "hi")) "request-0"
                         (Some Sample.lora) (Some (Sample.adapter 3))))
   <= 1)%nat
  /\ Forall (fun ev => exists text,
                 ev = Encode "request-0" text (Some Sample.lora))
       (trace (preprocess Sample.decoder_only
                 (Singleton (PromptStr "hi")) "request-0"
                 (Some Sample.lora) (Some (Sample.adapter 3)))).
Proof.
  apply decoder_only_preprocess_calls. reflexivity.
Defined.

(** X11.  On a model that is not encoder/decoder, a result of [preprocess] holds
    the prompt's own text, payload and processor options, and token ids
    that are the extracted ones behind the adapter's placeholders. *)
Theorem decoder_only_preprocess_result
    (self : t) (p : SingletonPrompt) (request_id : string)
    (lora_request : option LoRARequest) (par : option PromptAdapterRequest)
    (r : ProcessorInputs) :
  is_encoder_decoder_model self = false ->
  outcome (preprocess self (Singleton p) request_id lora_request par) = Ok r ->
  exists ids,
    outcome (_extract_prompt_components self p request_id lora_request)
    = Ok (singleton_text p, ids, singleton_multi_modal_data p,
          singleton_mm_processor_kwargs p)
    /\ r = DecoderOnly
             {| DecoderOnlyInputs.prompt_token_ids :=
                  _apply_prompt_adapter ids par;
                DecoderOnlyInputs.prompt := singleton_text p;
                DecoderOnlyInputs.multi_modal_data :=
                  singleton_multi_modal_data p;
                DecoderOnlyInputs.mm_processor_kwargs :=
                  singleton_mm_processor_kwargs p |}.
Proof.
  intros Hmodel. unfold preprocess. rewrite Hmodel. intros H.
  apply outcome_bind_Ok in H. destruct H as (d & Hd & H). injection H as <-.
  unfold _process_decoder_only_prompt in Hd.
  apply outcome_bind_Ok in Hd. destruct Hd as (comps & Hext & Hd).
  injection Hd as <-.
  destruct (extract_components_views _ _ _ _ _ Hext) as (ids & ->).
  now exists ids.
Qed.

Lemma decoder_only_preprocess_result_witness :
  exists ids,
    outcome (_extract_prompt_components Sample.decoder_only
               (Sample.text "hi" (Some Sample.image) (Some Sample.options))
               "request-0" (Some Sample.lora))
    = Ok (Some "hi", ids, Some Sample.image, Some Sample.options)
    /\ DecoderOnly
         {| DecoderOnlyInputs.prompt_token_ids := [0; 0; 104; 105];
            DecoderOnlyInputs.prompt := Some "hi";
            DecoderOnlyInputs.multi_modal_data := Some Sample.image;
            DecoderOnlyInputs.mm_processor_kwargs := Some Sample.options |}
       = DecoderOnly
           {| DecoderOnlyInputs.prompt_token_ids :=
                _apply_prompt_adapter ids (Some (Sample.adapter 2));
              DecoderOnlyInputs.prompt := Some "hi";
              DecoderOnlyInputs.multi_modal_data := Some Sample.image;
              DecoderOnlyInputs.mm_processor_kwargs := Some Sample.options |}.
Proof.
  exact (decoder_only_preprocess_result Sample.decoder_only
           (Sample.text "hi" (Some Sample.image) (Some Sample.options))
           "request-0" (Some Sample.lora) (Some (Sample.adapter 2))
           _ eq_refl eq_refl).
Defined.

(** ** The encoder/decoder path *)

Lemma build_enc_dec_fields
    (self : t) (et dt : option string) (eids : list Z)
    (dids : option (list Z)) (emm dmm : option MultiModalDataDict)
    (ekw dkw : option Dict) (kwargs : Dict) (e : EncoderDecoderInputs.t) :
  outcome (_build_enc_dec_llm_inputs self (et, eids, emm, ekw)
             (dt, dids, dmm, dkw) kwargs) = Ok e ->
  dmm = None
  /\ outcome (_prepare_decoder_input_ids_for_generation self dids
                (is_None emm))
     = Ok (EncoderDecoderInputs.prompt_token_ids e)
  /\ e = {| EncoderDecoderInputs.prompt_token_ids :=
              EncoderDecoderInputs.prompt_token_ids e;
            EncoderDecoderInputs.prompt := dt;
            EncoderDecoderInputs.multi_modal_data := None;
            EncoderDecoderInputs.mm_processor_kwargs := kwargs;
            EncoderDecoderInputs.encoder_prompt_token_ids := eids;
            EncoderDecoderInputs.encoder_prompt := et;
            EncoderDecoderInputs.encoder_multi_modal_data := emm |}.
Proof.
  unfold _build_enc_dec_llm_inputs.
  destruct dmm as [mm|]; cbn [negb is_None]; [discriminate|].
  rewrite andb_true_r. intros H.
  apply outcome_bind_Ok in H. destruct H as (ids & Hids & H).
  injection H as <-. now repeat split.
Qed.

(** The shape of a successful blocking run on an encoder/decoder model, in
    terms of the two sides of the input. *)
Lemma process_enc_dec_Ok
    (self : t) (prompt : PromptType) (request_id : string)
    (e : EncoderDecoderInputs.t) :
  outcome (_process_encoder_decoder_prompt self prompt request_id) = Ok e ->
  exists eids dids,
    outcome (_extract_prompt_components self (encoder_side prompt)
               request_id None)
    = Ok (singleton_text (encoder_side prompt), eids,
          singleton_multi_modal_data (encoder_side prompt),
          singleton_mm_processor_kwargs (encoder_side prompt))
    /\ match decoder_side prompt with
       | None => dids = None
       | Some dp =>
           exists ids,
             dids = Some ids
             /\ singleton_multi_modal_data dp = None
             /\ outcome (_extract_prompt_components self dp request_id None)
                = Ok (singleton_text dp, ids, None,
                      singleton_mm_processor_kwargs dp)
       end
    /\ outcome (_prepare_decoder_input_ids_for_generation self dids
                  (is_None (singleton_multi_modal_data (encoder_side prompt))))
       = Ok (EncoderDecoderInputs.prompt_token_ids e)
    /\ e = {| EncoderDecoderInputs.prompt_token_ids :=
                EncoderDecoderInputs.prompt_token_ids e;
              EncoderDecoderInputs.prompt :=
                match decoder_side prompt with
                | None => None
                | Some dp => singleton_text dp
                end;
              EncoderDecoderInputs.multi_modal_data := None;
              EncoderDecoderInputs.mm_processor_kwargs :=
                match top_level_mm_processor_kwargs prompt with
                | Some kwargs => kwargs
                | None => []
                end;
              EncoderDecoderInputs.encoder_prompt_token_ids := eids;
              EncoderDecoderInputs.encoder_prompt :=
                singleton_text (encoder_side prompt);
              EncoderDecoderInputs.encoder_multi_modal_data :=
                singleton_multi_modal_data (encoder_side prompt) |}.
Proof.
  unfold _process_encoder_decoder_prompt.
  destruct prompt as [p | p];
    cbn [encoder_side decoder_side top_level_mm_processor_kwargs];
    intros H; apply outcome_bind_Ok in H;
    destruct H as (ec & Hec & H);
    destruct (extract_components_views _ _ _ _ _ Hec) as (eids & ->).
  - apply build_enc_dec_fields in H. destruct H as (_ & Hprep & He).
    exists eids, None. repeat split; assumption.
  - apply outcome_bind_Ok in H. destruct H as (dc & Hdc & H).
    destruct (ExplicitEncoderDecoderPrompt.decoder_prompt p) as [dp|].
    + apply outcome_bind_Ok in Hdc. destruct Hdc as (c & Hc & Hdc).
      destruct (extract_components_views _ _ _ _ _ Hc) as (ids & ->).
      injection Hdc as <-. cbn [as_decoder_comps] in H.
      apply build_enc_dec_fields in H. destruct H as (Hmm & Hprep & He).
      exists eids, (Some ids). rewrite Hmm in Hc.
      repeat split; try assumption. exists ids. now repeat split.
    + injection Hdc as <-.
      apply build_enc_dec_fields in H. destruct H as (_ & Hprep & He).
      exists eids, None. repeat split; assumption.
Qed.

(** ** The selectors on the encoder/decoder path *)

(** C10.  On an encoder/decoder model [preprocess] does not depend on the
    LoRA selector or on the prompt-adapter selector: any two choices of them
    give the same calls and the same result, so the result is the one
    obtained with no adapter attached; every collaborator call is made
    without a LoRA selector; the encoder token ids of the result are
    exactly those extracted from the encoder-side prompt; and the decoder
    token ids of the result are exactly what synthesis returns on the ids
    extracted from the decoder-side prompt (on no ids when there is none):
    the extracted ids with or without the decoder-start token id [s] in
    front, or [[b]] or [[s, b]] for the BOS token id [b].  No placeholder
    token is put in front of either sequence. *)
Theorem enc_dec_ignores_adapter_selectors
    (self : t) (prompt : PromptType) (request_id : string)
    (lora_request : option LoRARequest)
    (par : option PromptAdapterRequest) :
  is_encoder_decoder_model self = true ->
  (forall lora_request' par',
     preprocess self prompt request_id lora_request par
     = preprocess self prompt request_id lora_request' par')
  /\ Forall without_lora
       (trace (preprocess self prompt request_id lora_request par))
  /\ (forall r,
        outcome (preprocess self prompt request_id lora_request par) = Ok r ->
        exists e text mm kw,
          r = EncoderDecoder e
          /\ outcome (_extract_prompt_components self (encoder_side prompt)
                        request_id None)
             = Ok (text, EncoderDecoderInputs.encoder_prompt_token_ids e,
                   mm, kw))
  /\ (forall r,
        outcome (preprocess self prompt request_id lora_request par) = Ok r ->
        exists e dids s,
          r = EncoderDecoder e
          /\ match decoder_side prompt with
             | None => dids = None
             | Some dp =>
                 exists text ids mm kw,
                   dids = Some ids
                   /\ outcome (_extract_prompt_components self dp request_id
                                 None)
                      = Ok (text, ids, mm, kw)
             end
          /\ outcome (_prepare_decoder_input_ids_for_generation self dids
                        (is_None (singleton_multi_modal_data
                                    (encoder_side prompt))))
             = Ok (EncoderDecoderInputs.prompt_token_ids e)
          /\ outcome (get_decoder_start_token_id self) = Ok (Some s)
          /\ match dids with
             | None =>
                 exists b,
                   outcome (get_bos_token_id self None) = Ok (Some b)
                   /\ (EncoderDecoderInputs.prompt_token_ids e = [b]
                       \/ EncoderDecoderInputs.prompt_token_ids e = [s; b])
             | Some ids =>
                 EncoderDecoderInputs.prompt_token_ids e = ids
                 \/ EncoderDecoderInputs.prompt_token_ids e = s :: ids
             end).
Proof.
  intros Hmodel. unfold preprocess. rewrite Hmodel.
  split; [reflexivity | split; [| split]].
  - trace_step; [apply process_enc_dec_without_lora | trace_step].
  - intros r H. apply outcome_bind_Ok in H. destruct H as (e & He & H).
    injection H as <-.
    apply process_enc_dec_encoder_ids in He.
    destruct He as (text & mm & kw & He).
    now exists e, text, mm, kw.
  - intros r H. apply outcome_bind_Ok in H. destruct H as (e & He & H).
    injection H as <-.
    apply process_enc_dec_Ok in He.
    destruct He as (eids & dids & _ & Hdec & Hprep & _).
    destruct (prepare_decoder_input_ids_Ok _ _ _ _ Hprep) as (s & Hs & Hids).
    exists e, dids, s.
    split; [reflexivity | split; [| split; [exact Hprep | split; [exact Hs|]]]].
    + destruct (decoder_side prompt) as [dp|]; [| exact Hdec].
      destruct Hdec as (ids & -> & _ & Hext).
      exists (singleton_text dp), ids, None,
        (singleton_mm_processor_kwargs dp).
      split; [reflexivity | exact Hext].
    + destruct dids; exact Hids.
Qed.

Lemma enc_dec_ignores_adapter_selectors_witness :
  preprocess Sample.enc_dec (Singleton (PromptStr "hi")) "request-0"
    (Some Sample.lora) (Some (Sample.adapter 3))
  = preprocess Sample.enc_dec (Singleton (PromptStr "hi")) "request-0"
      None None
  /\ exists e dids s,
       EncoderDecoder
         {| EncoderDecoderInputs.prompt_token_ids := [5; 1; 2];
            EncoderDecoderInputs.prompt := None;
            EncoderDecoderInputs.multi_modal_data := None;
            EncoderDecoderInputs.mm_processor_kwargs := [];
            EncoderDecoderInputs.encoder_prompt_token_ids := [7; 8];
            EncoderDecoderInputs.encoder_prompt := None;
            EncoderDecoderInputs.encoder_multi_modal_data := None |}
       = EncoderDecoder e
       /\ (exists text ids mm kw,
             dids = Some ids
             /\ outcome (_extract_prompt_components Sample.enc_dec
                           (Sample.tokens [1; 2] None) "request-0" None)
                = Ok (text, ids, mm, kw))
       /\ outcome (_prepare_decoder_input_ids_for_generation Sample.enc_dec
                     dids true)
          = Ok (EncoderDecoderInputs.prompt_token_ids e)
       /\ outcome (get_decoder_start_token_id Sample.enc_dec) = Ok (Some s)
       /\ match dids with
          | None =>
              exists b,
                outcome (get_bos_token_id Sample.enc_dec None) = Ok (Some b)
                /\ (EncoderDecoderInputs.prompt_token_ids e = [b]
                    \/ EncoderDecoderInputs.prompt_token_ids e = [s; b])
          | Some ids =>
              EncoderDecoderInputs.prompt_token_ids e = ids
              \/ EncoderDecoderInputs.prompt_token_ids e = s :: ids
          end.
Proof.
  split.
  - apply (proj1 (enc_dec_ignores_adapter_selectors Sample.enc_dec
                    (Singleton (PromptStr "hi")) "request-0"
                    (Some Sample.lora) (Some (Sample.adapter 3)) eq_refl)).
  - exact (proj2 (proj2 (proj2
             (enc_dec_ignores_adapter_selectors Sample.enc_dec
                (Sample.pair (Some (Sample.tokens [1; 2] None)) None)
                "request-0" (Some Sample.lora) (Some (Sample.adapter 3))
                eq_refl)))
             _ eq_refl).
Defined.

(** X12.  A result of [preprocess] on an encoder/decoder model never carries a
    decoder-side payload; its encoder text and payload are those of the
    encoder-side prompt, and its decoder text is that of the decoder-side
    prompt, or [None] when there is none. *)
Theorem enc_dec_preprocess_result_sides
    (self : t) (prompt : PromptType) (request_id : string)
    (lora_request : option LoRARequest) (par : option PromptAdapterRequest)
    (r : ProcessorInputs) :
  is_encoder_decoder_model self = true ->
  outcome (preprocess self prompt request_id lora_request par) = Ok r ->
  exists e,
    r = EncoderDecoder e
    /\ EncoderDecoderInputs.multi_modal_data e = None
    /\ EncoderDecoderInputs.encoder_prompt e
       = singleton_text (encoder_side prompt)
    /\ EncoderDecoderInputs.encoder_multi_modal_data e
       = singleton_multi_modal_data (encoder_side prompt)
    /\ EncoderDecoderInputs.prompt e
       = match decoder_side prompt with
         | None => None
         | Some dp => singleton_text dp
         end.
Proof.
  intros Hmodel. unfold preprocess. rewrite Hmodel. intros H.
  apply outcome_bind_Ok in H. destruct H as (e & He & H). injection H as <-.
  apply process_enc_dec_Ok in He.
  destruct He as (eids & dids & _ & _ & _ & ->).
  eexists. split; [reflexivity|]. now repeat split.
Qed.

Lemma enc_dec_preprocess_result_sides_witness :
  exists e,
    EncoderDecoder
      {| EncoderDecoderInputs.prompt_token_ids := [5; 104; 111];
         EncoderDecoderInputs.prompt := Some "ho";
         EncoderDecoderInputs.multi_modal_data := None;
         EncoderDecoderInputs.mm_processor_kwargs := [];
         EncoderDecoderInputs.encoder_prompt_token_ids := [7; 8];
         EncoderDecoderInputs.encoder_prompt := None;
         EncoderDecoderInputs.encoder_multi_modal_data := None |}
    = EncoderDecoder e
    /\ EncoderDecoderInputs.multi_modal_data e = None
    /\ EncoderDecoderInputs.encoder_prompt e = None
    /\ EncoderDecoderInputs.encoder_multi_modal_data e = None
    /\ EncoderDecoderInputs.prompt e = Some "ho".
Proof.
  exact (enc_dec_preprocess_result_sides Sample.enc_dec
           (Sample.pair (Some (PromptStr "ho")) None) "request-0"
           None None _ eq_refl eq_refl).
Defined.

(** X13.  The processor options of a result of [preprocess] on an encoder/decoder
    model are those written at the top level of the input, or empty when
    there are none: for an explicit pair the options of its encoder and
    decoder prompts are not used. *)
Theorem enc_dec_preprocess_processor_options
    (self : t) (prompt : PromptType) (request_id : string)
    (lora_request : option LoRARequest) (par : option PromptAdapterRequest)
    (e : EncoderDecoderInputs.t) :
  is_encoder_decoder_model self = true ->
  outcome (preprocess self prompt request_id lora_request par)
  = Ok (EncoderDecoder e) ->
  EncoderDecoderInputs.mm_processor_kwargs e
  = match top_level_mm_processor_kwargs prompt with
    | Some kwargs => kwargs
    | None => []
    end.
Proof.
  intros Hmodel. unfold preprocess. rewrite Hmodel. intros H.
  apply outcome_bind_Ok in H. destruct H as (e' & He & H). injection H as <-.
  apply process_enc_dec_Ok in He.
  destruct He as (eids & dids & _ & _ & _ & ->). reflexivity.
Qed.

Lemma enc_dec_preprocess_processor_options_witness :
  @nil (string * Any)
  = match top_level_mm_processor_kwargs
            (Explicit
               {| ExplicitEncoderDecoderPrompt.encoder_prompt :=
                    Sample.text "hi" None (Some Sample.options);
                  ExplicitEncoderDecoderPrompt.decoder_prompt := None;
                  ExplicitEncoderDecoderPrompt.mm_processor_kwargs := None |})
    with
    | Some kwargs => kwargs
    | None => []
    end.
Proof.
  exact (enc_dec_preprocess_processor_options Sample.enc_dec
           (Explicit
              {| ExplicitEncoderDecoderPrompt.encoder_prompt :=
                   Sample.text "hi" None (Some Sample.options);
                 ExplicitEncoderDecoderPrompt.decoder_prompt := None;
                 ExplicitEncoderDecoderPrompt.mm_processor_kwargs := None |})
           "request-0" None None
           {| EncoderDecoderInputs.prompt_token_ids := [5; 1];
              EncoderDecoderInputs.prompt := None;
              EncoderDecoderInputs.multi_modal_data := None;
              EncoderDecoderInputs.mm_processor_kwargs := [];
              EncoderDecoderInputs.encoder_prompt_token_ids := [104; 105];
              EncoderDecoderInputs.encoder_prompt := Some "hi";
              EncoderDecoderInputs.encoder_multi_modal_data := None |}
           eq_refl eq_refl).
Defined.

(** X14.  When the encoder side carries a multi-modal payload, the decoder token
    ids of a result are those extracted from the given decoder prompt, as
    they are: no decoder-start token is put in front, and an empty sequence
    stays empty. *)
Theorem enc_dec_payload_keeps_decoder_ids
    (self : t) (prompt : PromptType) (dp : SingletonPrompt)
    (mm : MultiModalDataDict) (request_id : string)
    (lora_request : option LoRARequest) (par : option PromptAdapterRequest)
    (e : EncoderDecoderInputs.t) :
  is_encoder_decoder_model self = true ->
  singleton_multi_modal_data (encoder_side prompt) = Some mm ->
  decoder_side prompt = Some dp ->
  outcome (preprocess self prompt request_id lora_request par)
  = Ok (EncoderDecoder e) ->
  outcome (_extract_prompt_components self dp request_id None)
  = Ok (singleton_text dp, EncoderDecoderInputs.prompt_token_ids e, None,
        singleton_mm_processor_kwargs dp).
Proof.
  intros Hmodel Hmm Hdp. unfold preprocess. rewrite Hmodel. intros H.
  apply outcome_bind_Ok in H. destruct H as (e' & He & H). injection H as <-.
  apply process_enc_dec_Ok in He.
  destruct He as (eids & dids & _ & Hdec & Hprep & _).
  rewrite Hdp in Hdec. destruct Hdec as (ids & -> & _ & Hext).
  rewrite Hmm in Hprep. cbn [is_None] in Hprep.
  apply prepare_decoder_input_ids_without_force_bos_aux in Hprep.
  now rewrite Hprep.
Qed.

Lemma enc_dec_payload_keeps_decoder_ids_witness :
  outcome (_extract_prompt_components Sample.enc_dec (Sample.tokens [] None)
             "request-0" None)
  = Ok (None, [], None, None).
Proof.
  exact (enc_dec_payload_keeps_decoder_ids Sample.enc_dec
           (Explicit
              {| ExplicitEncoderDecoderPrompt.encoder_prompt :=
                   Sample.tokens [7; 8] (Some Sample.image);
                 ExplicitEncoderDecoderPrompt.decoder_prompt :=
                   Some (Sample.tokens [] None);
                 ExplicitEncoderDecoderPrompt.mm_processor_kwargs := None |})
           (Sample.tokens [] None) Sample.image "request-0" None None
           {| EncoderDecoderInputs.prompt_token_ids := [];
              EncoderDecoderInputs.prompt := None;
              EncoderDecoderInputs.multi_modal_data := None;
              EncoderDecoderInputs.mm_processor_kwargs := [];
              EncoderDecoderInputs.encoder_prompt_token_ids := [7; 8];
              EncoderDecoderInputs.encoder_prompt := None;
              EncoderDecoderInputs.encoder_multi_modal_data :=
                Some Sample.image |}
           eq_refl eq_refl eq_refl eq_refl).
Defined.

(** X15.  On an encoder/decoder model, an explicit pair whose decoder prompt
    carries a multi-modal payload never yields a result: [preprocess]
    raises [UnsupportedMultiModalDecoderInput], unless a text prompt of the
    pair has already stopped extraction for want of a tokenizer. *)
Theorem enc_dec_preprocess_rejects_decoder_payload
    (self : t) (prompt : PromptType) (dp : SingletonPrompt)
    (mm : MultiModalDataDict) (request_id : string)
    (lora_request : option LoRARequest)
    (par : option PromptAdapterRequest) :
  is_encoder_decoder_model self = true ->
  decoder_side prompt = Some dp ->
  singleton_multi_modal_data dp = Some mm ->
  outcome (preprocess self prompt request_id lora_request par)
  = Raise (if is_None (tokenizer self)
              && (is_text_prompt (encoder_side prompt) || is_text_prompt dp)
           then TokenizerUnavailable
           else UnsupportedMultiModalDecoderInput).
Proof.
  intros Hmodel Hdp Hmm. unfold preprocess. rewrite Hmodel.
  destruct prompt as [p | p]; [discriminate Hdp|].
  cbn [decoder_side encoder_side] in *.
  unfold _process_encoder_decoder_prompt. rewrite Hdp.
  unfold _extract_prompt_components, _tokenize_prompt, get_tokenizer_group,
    is_text_prompt.
  unfold singleton_multi_modal_data in Hmm.
  destruct (parse_singleton_prompt
              (ExplicitEncoderDecoderPrompt.encoder_prompt p)),
    (parse_singleton_prompt dp), (tokenizer self);
    cbn in *; try discriminate Hmm; try rewrite Hmm; reflexivity.
Qed.

Lemma enc_dec_preprocess_rejects_decoder_payload_witness :
  outcome (preprocess Sample.enc_dec
             (Sample.pair (Some (Sample.text "ho" (Some Sample.image) None))
                (Some []))
             "request-0" None None)
  = Raise UnsupportedMultiModalDecoderInput.
Proof.
  exact (enc_dec_preprocess_rejects_decoder_payload Sample.enc_dec
           (Sample.pair (Some (Sample.text "ho" (Some Sample.image) None))
              (Some []))
           (Sample.text "ho" (Some Sample.image) None) Sample.image
           "request-0" None None eq_refl eq_refl eq_refl).
Defined.

Lemma build_enc_dec_raises
    (self : t) (encoder_comps : PromptComponents)
    (decoder_comps : DecoderPromptComponents) (kwargs : Dict) (e : Exn) :
  outcome (_build_enc_dec_llm_inputs self encoder_comps decoder_comps kwargs)
  = Raise e ->
  is_documented_failure e = true.
Proof.
  destruct encoder_comps as [[[ep eids] emm] ekw].
  destruct decoder_comps as [[[dp dids] dmm] dkw].
  unfold _build_enc_dec_llm_inputs.
  destruct (negb (is_None dmm)).
  - intros H. now injection H as <-.
  - intros H. apply outcome_bind_Raise in H.
    destruct H as [H | (ids & _ & H)]; [| discriminate H].
    apply prepare_decoder_input_ids_raises_iff_aux in H.
    destruct H as [[_ ->] | (s & _ & _ & _ & ->)]; reflexivity.
Qed.

Lemma extract_raises_documented
    (self : t) (prompt : SingletonPrompt) (request_id : string)
    (lora_request : option LoRARequest) (e : Exn) :
  outcome (_extract_prompt_components self prompt request_id lora_request)
  = Raise e ->
  is_documented_failure e = true.
Proof.
  intros H. apply extract_raises_iff in H. now destruct H as (_ & _ & ->).
Qed.

(** X16.  The blocking entry point raises nothing but its five documented
    failures: whatever the model, the tokenizer and the input, it raises
    neither [KeyError] nor [UnboundLocalError]. *)
Theorem preprocess_raises_documented_only
    (self : t) (prompt : PromptType) (request_id : string)
    (lora_request : option LoRARequest) (par : option PromptAdapterRequest)
    (e : Exn) :
  outcome (preprocess self prompt request_id lora_request par) = Raise e ->
  is_documented_failure e = true.
Proof.
  unfold preprocess. destruct (is_encoder_decoder_model self).
  - intros H. apply outcome_bind_Raise in H.
    destruct H as [H | (a & _ & H)]; [| discriminate H].
    unfold _process_encoder_decoder_prompt in H.
    destruct prompt as [p | p]; apply outcome_bind_Raise in H;
      destruct H as [H | (ec & _ & H)];
      try (now apply extract_raises_documented in H).
    + now apply build_enc_dec_raises in H.
    + apply outcome_bind_Raise in H.
      destruct H as [H | (dc & _ & H)];
        [| now apply build_enc_dec_raises in H].
      destruct (ExplicitEncoderDecoderPrompt.decoder_prompt p);
        [| discriminate H].
      apply outcome_bind_Raise in H.
      destruct H as [H | (c & _ & H)]; [| discriminate H].
      now apply extract_raises_documented in H.
  - destruct prompt as [p | p]; [| intros H; now injection H as <-].
    intros H. apply outcome_bind_Raise in H.
    destruct H as [H | (a & _ & H)]; [| discriminate H].
    unfold _process_decoder_only_prompt in H.
    apply outcome_bind_Raise in H.
    destruct H as [H | (c & _ & H)]; [| discriminate H].
    now apply extract_raises_documented in H.
Qed.

Lemma preprocess_raises_documented_only_witness :
  is_documented_failure MissingBosToken = true.
Proof.
  exact (preprocess_raises_documented_only Sample.enc_dec_no_tokenizer
           (Singleton (Sample.tokens [7; 8] None)) "request-0" None None
           MissingBosToken eq_refl).
Defined.

(** ** The suspendable entry point *)

(** X17.  On an encoder/decoder model, the suspendable entry point never returns
    a result for an explicit pair that lacks a decoder prompt or the key
    [mm_processor_kwargs]: it raises [UnboundLocalError] when the decoder
    prompt is missing and [KeyError] otherwise, unless a text prompt of the
    pair has already stopped extraction for want of a tokenizer. *)
Theorem preprocess_async_incomplete_pair_raises
    (self : t) (p : ExplicitEncoderDecoderPrompt.t) (request_id : string)
    (lora_request : option LoRARequest)
    (par : option PromptAdapterRequest) :
  is_encoder_decoder_model self = true ->
  pair_is_complete (Explicit p) = false ->
  outcome (preprocess_async self (Explicit p) request_id lora_request par)
  = Raise
      (if is_None (tokenizer self)
          && (is_text_prompt (ExplicitEncoderDecoderPrompt.encoder_prompt p)
              || match ExplicitEncoderDecoderPrompt.decoder_prompt p with
                 | Some dp => is_text_prompt dp
                 | None => false
                 end)
       then TokenizerUnavailable
       else match ExplicitEncoderDecoderPrompt.decoder_prompt p with
            | Some _ => KeyError "mm_processor_kwargs"
            | None => UnboundLocalError "mm_processor_kwargs"
            end).
Proof.
  intros Hmodel Hpair. unfold preprocess_async. rewrite Hmodel.
  unfold _process_encoder_decoder_prompt_async,
    _extract_prompt_components_async, _tokenize_prompt_async,
    get_tokenizer_group, is_text_prompt.
  unfold pair_is_complete in Hpair.
  destruct (ExplicitEncoderDecoderPrompt.decoder_prompt p) as [dp|].
  - destruct (ExplicitEncoderDecoderPrompt.mm_processor_kwargs p);
      [discriminate Hpair|].
    destruct (parse_singleton_prompt
                (ExplicitEncoderDecoderPrompt.encoder_prompt p)),
      (parse_singleton_prompt dp), (tokenizer self); reflexivity.
  - destruct (parse_singleton_prompt
                (ExplicitEncoderDecoderPrompt.encoder_prompt p)),
      (tokenizer self); reflexivity.
Qed.

Lemma preprocess_async_incomplete_pair_raises_witness :
  outcome (preprocess_async Sample.enc_dec
             (Explicit
                {| ExplicitEncoderDecoderPrompt.encoder_prompt :=
                     PromptStr "hi";
                   ExplicitEncoderDecoderPrompt.decoder_prompt :=
                     Some (PromptStr "ho");
                   ExplicitEncoderDecoderPrompt.mm_processor_kwargs := None |})
             "request-0" None None)
  = Raise (KeyError "mm_processor_kwargs").
Proof.
  exact (preprocess_async_incomplete_pair_raises Sample.enc_dec
           {| ExplicitEncoderDecoderPrompt.encoder_prompt := PromptStr "hi";
              ExplicitEncoderDecoderPrompt.decoder_prompt :=
                Some (PromptStr "ho");
              ExplicitEncoderDecoderPrompt.mm_processor_kwargs := None |}
           "request-0" None None eq_refl eq_refl).
Defined.

Lemma map_to_async_fixed (tr : list Event) :
  Forall (fun ev => to_async ev = ev) tr -> map to_async tr = tr.
Proof.
  induction 1 as [| ev tr Hev _ IH]; [reflexivity|].
  cbn. now rewrite Hev, IH.
Qed.

Lemma get_bos_not_encode (self : t) (lora_request : option LoRARequest) :
  Forall (fun ev => to_async ev = ev)
    (trace (get_bos_token_id self lora_request)).
Proof.
  unfold get_bos_token_id. destruct (tokenizer self); repeat trace_step.
Qed.

Lemma get_decoder_start_not_encode (self : t) :
  Forall (fun ev => to_async ev = ev) (trace (get_decoder_start_token_id self)).
Proof.
  unfold get_decoder_start_token_id.
  destruct (negb _); [repeat trace_step|].
  destruct (ModelConfig.hf_config _) as [hf|]; [|repeat trace_step].
  destruct (decoder_start_token_id hf); repeat trace_step.
  apply get_bos_not_encode.
Qed.

Lemma prepare_not_encode (self : t) (ids : option (list Z)) (b : bool) :
  Forall (fun ev => to_async ev = ev)
    (trace (_prepare_decoder_input_ids_for_generation self ids b)).
Proof.
  unfold _prepare_decoder_input_ids_for_generation.
  trace_step; [apply get_decoder_start_not_encode|].
  destruct a as [s|]; [|trace_step].
  trace_step.
  - destruct ids; [trace_step|].
    unfold _get_default_enc_dec_decoder_prompt.
    trace_step; [apply get_bos_not_encode|].
    destruct a; trace_step.
  - destruct (b && _); trace_step.
Qed.

(** Assembly of an encoder/decoder result never calls [encode]. *)
Lemma build_enc_dec_not_encode (self : t) (encoder_comps : PromptComponents)
    (decoder_comps : DecoderPromptComponents) (kwargs : Dict) :
  Forall (fun ev => to_async ev = ev)
    (trace (_build_enc_dec_llm_inputs self encoder_comps decoder_comps kwargs)).
Proof.
  destruct encoder_comps as [[[ep eids] emm] ekw].
  destruct decoder_comps as [[[dp dids] dmm] dkw].
  unfold _build_enc_dec_llm_inputs.
  destruct (negb (is_None dmm)); [trace_step|].
  trace_step; [apply prepare_not_encode | trace_step].
Qed.

Lemma extract_trace_without_tokenizer
    (self : t) (prompt : SingletonPrompt) (request_id : string)
    (lora_request : option LoRARequest) :
  tokenizer self = None ->
  trace (_extract_prompt_components self prompt request_id lora_request) = [].
Proof.
  intros H.
  unfold _extract_prompt_components, _tokenize_prompt, get_tokenizer_group.
  rewrite H. now destruct (parse_singleton_prompt prompt).
Qed.

Lemma run_eta {A : Type} (m : Run A) : m = (trace m, outcome m).
Proof. now destruct m. Qed.

Section AsyncCalls.

Variable self : t.

Hypothesis encode_async_agrees :
  forall tg, tokenizer self = Some tg ->
  forall request_id prompt lora_request,
    encode_async tg request_id prompt lora_request
    = encode tg request_id prompt lora_request.

Lemma extract_async_trace (prompt : SingletonPrompt) (request_id : string)
    (lora_request : option LoRARequest) :
  trace (_extract_prompt_components_async self prompt request_id lora_request)
  = map to_async
      (trace (_extract_prompt_components self prompt request_id lora_request)).
Proof.
  unfold _extract_prompt_components_async, _extract_prompt_components,
    _tokenize_prompt_async, _tokenize_prompt, get_tokenizer_group.
  now destruct (parse_singleton_prompt prompt), (tokenizer self).
Qed.

Lemma process_enc_dec_async_trace (prompt : PromptType)
    (request_id : string) :
  pair_is_complete prompt = true ->
  trace (_process_encoder_decoder_prompt_async self prompt request_id)
  = map to_async
      (trace (_process_encoder_decoder_prompt self prompt request_id)).
Proof.
  unfold _process_encoder_decoder_prompt_async,
    _process_encoder_decoder_prompt, pair_is_complete.
  destruct prompt as [p | p].
  - intros _.
    rewrite bind_assoc, !trace_bind,
      (extract_async_agrees self encode_async_agrees), extract_async_trace.
    destruct (outcome (_extract_prompt_components _ _ _ _)) as [c|];
      [| reflexivity].
    rewrite map_app. f_equal.
    cbv beta iota delta [bind ret load_local].
    rewrite (run_eta (_build_enc_dec_llm_inputs _ _ _ _)) at 1.
    cbn [trace fst app].
    symmetry. apply map_to_async_fixed, build_enc_dec_not_encode.
  - destruct (ExplicitEncoderDecoderPrompt.decoder_prompt p) as [dp|];
      [| discriminate].
    destruct (ExplicitEncoderDecoderPrompt.mm_processor_kwargs p) as [kw|];
      [| discriminate].
    intros _. unfold getitem.
    set (enc := ExplicitEncoderDecoderPrompt.encoder_prompt p).
    pose proof (extract_async_trace enc request_id None) as Te.
    pose proof (extract_async_trace dp request_id None) as Td.
    pose proof (extract_async_agrees self encode_async_agrees enc request_id
                  None) as Oe.
    pose proof (extract_async_agrees self encode_async_agrees dp request_id
                  None) as Od.
    pose proof (fun e => proj1 (extract_raises_iff self enc request_id None e))
      as Re.
    pose proof (extract_trace_without_tokenizer self dp request_id None)
      as Nd.
    destruct (_extract_prompt_components_async self enc request_id None)
      as [tre' oe'].
    destruct (_extract_prompt_components_async self dp request_id None)
      as [trd' od'].
    destruct (_extract_prompt_components self enc request_id None)
      as [tre oe].
    destruct (_extract_prompt_components self dp request_id None)
      as [trd od].
    cbn [trace outcome fst snd] in *. subst tre' trd' oe' od'.
    destruct oe as [ec | e].
    + destruct od as [dc | e].
      * cbv beta iota delta [bind ret load_local gather fst snd trace].
        pose proof (build_enc_dec_not_encode self ec (as_decoder_comps dc) kw)
          as Hb.
        destruct (_build_enc_dec_llm_inputs self ec (as_decoder_comps dc) kw)
          as [trb ob].
        cbn [trace fst] in Hb. cbn [app].
        rewrite !app_nil_r, !map_app, (map_to_async_fixed trb Hb).
        now rewrite app_assoc.
      * cbv beta iota delta [bind ret load_local gather fst snd trace].
        now rewrite ?app_nil_r, ?map_app.
    + cbv beta iota delta [bind ret load_local gather fst snd trace].
      destruct (Re e eq_refl) as (_ & Hn & _).
      rewrite (Nd Hn). cbn [map]. now rewrite ?app_nil_r.
Qed.

(** X18.  Outside the explicit pairs that lack a decoder prompt or the key
    [mm_processor_kwargs], and with a tokenizer whose two forms of [encode]
    return the same ids, the suspendable entry point makes the calls of the
    blocking one, in the same order, with [encode_async] in place of
    [encode], and ends as the blocking one ends: with the same result or
    the same exception. *)
Theorem preprocess_async_same_calls_and_outcome
    (prompt : PromptType) (request_id : string)
    (lora_request : option LoRARequest)
    (par : option PromptAdapterRequest) :
  is_encoder_decoder_model self = false \/ pair_is_complete prompt = true ->
  preprocess_async self prompt request_id lora_request par
  = (map to_async
       (trace (preprocess self prompt request_id lora_request par)),
     outcome (preprocess self prompt request_id lora_request par)).
Proof.
  intros H.
  rewrite (run_eta (preprocess_async _ _ _ _ _)).
  rewrite (preprocess_async_agrees self encode_async_agrees _ _ _ _ H).
  f_equal.
  unfold preprocess_async, preprocess.
  destruct (is_encoder_decoder_model self).
  - destruct H as [H | H]; [discriminate|].
    rewrite !trace_bind,
      (process_enc_dec_async_agrees self encode_async_agrees _ _ H),
      (process_enc_dec_async_trace _ _ H).
    destruct (outcome (_process_encoder_decoder_prompt _ _ _));
      [| reflexivity].
    cbn [ret trace fst]. now rewrite !app_nil_r.
  - destruct prompt as [p | p]; [| reflexivity].
    unfold _process_decoder_only_prompt_async, _process_decoder_only_prompt.
    rewrite !trace_bind, !outcome_bind,
      (extract_async_agrees self encode_async_agrees), extract_async_trace.
    destruct (outcome (_extract_prompt_components _ _ _ _));
      [| reflexivity].
    cbn [ret trace outcome fst snd]. now rewrite !app_nil_r.
Qed.

End AsyncCalls.

Lemma preprocess_async_same_calls_and_outcome_witness :
  preprocess_async Sample.enc_dec
    (Sample.pair (Some (PromptStr "ho")) (Some Sample.options))
    "request-0" None None
  = (map to_async
       (trace (preprocess Sample.enc_dec
                 (Sample.pair (Some (PromptStr "ho")) (Some Sample.options))
                 "request-0" None None)),
     outcome (preprocess Sample.enc_dec
                (Sample.pair (Some (PromptStr "ho")) (Some Sample.options))
                "request-0" None None)).
Proof.
  apply (preprocess_async_same_calls_and_outcome Sample.enc_dec).
  - intros tg H. injection H as <-. reflexivity.
  - right. reflexivity.
Defined.

(** ** Success of the encoder/decoder path on an explicit pair *)

(** X19.  On an encoder/decoder model whose decoder-start token id resolves to
    [s], an explicit pair with a decoder prompt that carries no payload
    yields a result as soon as its prompts can be extracted (a tokenizer is
    present, or both are pre-tokenized): the BOS token id is not needed.
    The decoder token ids of the result are the extracted ones, with [s]
    put in front when the encoder side has no payload and they do not begin
    with [s] already; the encoder token ids are the extracted ones. *)
Theorem enc_dec_pair_with_decoder_succeeds
    (self : t) (p : ExplicitEncoderDecoderPrompt.t) (dp : SingletonPrompt)
    (s : Z) (request_id : string) (lora_request : option LoRARequest)
    (par : option PromptAdapterRequest) :
  is_encoder_decoder_model self = true ->
  outcome (get_decoder_start_token_id self) = Ok (Some s) ->
  ExplicitEncoderDecoderPrompt.decoder_prompt p = Some dp ->
  singleton_multi_modal_data dp = None ->
  (is_text_prompt (ExplicitEncoderDecoderPrompt.encoder_prompt p)
   || is_text_prompt dp) && is_None (tokenizer self) = false ->
  exists e eids ids,
    outcome (preprocess self (Explicit p) request_id lora_request par)
    = Ok (EncoderDecoder e)
    /\ outcome (_extract_prompt_components self
                  (ExplicitEncoderDecoderPrompt.encoder_prompt p)
                  request_id None)
       = Ok (EncoderDecoderInputs.encoder_prompt e, eids,
             EncoderDecoderInputs.encoder_multi_modal_data e,
             singleton_mm_processor_kwargs
               (ExplicitEncoderDecoderPrompt.encoder_prompt p))
    /\ outcome (_extract_prompt_components self dp request_id None)
       = Ok (EncoderDecoderInputs.prompt e, ids, None,
             singleton_mm_processor_kwargs dp)
    /\ EncoderDecoderInputs.encoder_prompt_token_ids e = eids
    /\ EncoderDecoderInputs.prompt_token_ids e
       = (if is_None (EncoderDecoderInputs.encoder_multi_modal_data e)
             && negb (match hd_error ids with
                      | Some x => x =? s
                      | None => false
                      end)
          then s :: ids else ids).
Proof.
  intros Hmodel Hs Hdp Hmm Hext.
  set (enc := ExplicitEncoderDecoderPrompt.encoder_prompt p) in *.
  assert (He : is_text_prompt enc && is_None (tokenizer self) = false).
  { destruct (is_text_prompt enc), (is_None (tokenizer self));
      try reflexivity; discriminate Hext. }
  assert (Hd : is_text_prompt dp && is_None (tokenizer self) = false).
  { destruct (is_text_prompt enc), (is_text_prompt dp),
      (is_None (tokenizer self)); try reflexivity; discriminate Hext. }
  destruct (extract_never_raises_with_tokenizer_or_tokens self enc request_id
              None He) as (ec & Hec).
  destruct (extract_never_raises_with_tokenizer_or_tokens self dp request_id
              None Hd) as (dc & Hdc).
  destruct (extract_components_views _ _ _ _ _ Hec) as (eids & ->).
  destruct (extract_components_views _ _ _ _ _ Hdc) as (ids & ->).
  rewrite Hmm in Hdc.
  pose proof (prepare_given_ids self s ids
                (is_None (singleton_multi_modal_data enc)) Hs) as Hprep.
  eexists _, eids, ids.
  split; [| split; [| split; [| split]]].
  - unfold preprocess. rewrite Hmodel, outcome_bind.
    unfold _process_encoder_decoder_prompt. fold enc.
    rewrite outcome_bind, Hec, Hdp, outcome_bind, outcome_bind, Hdc.
    cbn [ret outcome snd as_decoder_comps].
    unfold _build_enc_dec_llm_inputs. cbn [negb is_None].
    rewrite outcome_bind, andb_true_r, Hprep. reflexivity.
  - exact Hec.
  - exact Hdc.
  - reflexivity.
  - cbn [EncoderDecoderInputs.prompt_token_ids
           EncoderDecoderInputs.encoder_multi_modal_data].
    destruct ids as [|x tl]; reflexivity.
Qed.

Lemma enc_dec_pair_with_decoder_succeeds_witness :
  exists e eids ids,
    outcome (preprocess Sample.enc_dec_no_tokenizer
               (Sample.pair (Some (Sample.tokens [1; 2] None)) None)
               "request-0" None None)
    = Ok (EncoderDecoder e)
    /\ outcome (_extract_prompt_components Sample.enc_dec_no_tokenizer
                  (Sample.tokens [7; 8] None) "request-0" None)
       = Ok (EncoderDecoderInputs.encoder_prompt e, eids,
             EncoderDecoderInputs.encoder_multi_modal_data e, None)
    /\ outcome (_extract_prompt_components Sample.enc_dec_no_tokenizer
                  (Sample.tokens [1; 2] None) "request-0" None)
       = Ok (EncoderDecoderInputs.prompt e, ids, None, None)
    /\ EncoderDecoderInputs.encoder_prompt_token_ids e = eids
    /\ EncoderDecoderInputs.prompt_token_ids e
       = (if is_None (EncoderDecoderInputs.encoder_multi_modal_data e)
             && negb (match hd_error ids with
                      | Some x => x =? 5
                      | None => false
                      end)
          then 5 :: ids else ids).
Proof.
  exact (enc_dec_pair_with_decoder_succeeds Sample.enc_dec_no_tokenizer
           {| ExplicitEncoderDecoderPrompt.encoder_prompt :=
                Sample.tokens [7; 8] None;
              ExplicitEncoderDecoderPrompt.decoder_prompt :=
                Some (Sample.tokens [1; 2] None);
              ExplicitEncoderDecoderPrompt.mm_processor_kwargs := None |}
           (Sample.tokens [1; 2] None) 5 "request-0" None None
           eq_refl eq_refl eq_refl eq_refl eq_refl).
Defined.
